(** * Trading MCP adapters: request building and parameter serialization

    A shallow embedding of the two adapters of the repository,
    [binance_mcp.py] (public crypto exchange API) and [dhan_mcp.py]
    (brokerage API), and the properties of their request building.

    Layout:
    - Python values, insertion-ordered dicts and [json.dumps];
    - the HTTP boundary: requests, responses, exceptions, and a monad
      threading the process state (module globals, environment, the list
      of requests handed to the HTTP client, sent or not);
    - [Module Binance] and [Module Dhan]: the module-level code and every
      tool function, in source order;
    - the properties. *)

From Stdlib Require Import List String Ascii ZArith Bool Lia.
From Stdlib Require Import DecimalString.
Import ListNotations.
Open Scope string_scope.
Open Scope Z_scope.
Set Warnings "-register-all".

(** ** Python values *)

(** A [float].  [json.dumps] prints the three non-finite floats by name and
    every finite one through [float.__repr__]; a finite float is kept as
    that repr, which identifies it. *)
Inductive pyfloat : Type :=
| FNan
| FInf
| FNegInf
| FFinite (repr : string).

(** The values that reach the adapters.  A [str] is a [string] whose
    characters are read as code points below 256; a [dict] has [str] keys
    and keeps insertion order.  [VBytes] is a [bytes] object: neither [None]
    nor a [list], and not JSON serializable. *)
Inductive pyval : Type :=
| VNone
| VBool (b : bool)
| VInt (z : Z)
| VFloat (f : pyfloat)
| VStr (s : string)
| VBytes (b : string)
| VList (items : list pyval)
| VDict (items : list (string * pyval)).

Definition dict : Type := list (string * pyval).

(** [v is None] *)
Definition is_None (v : pyval) : bool :=
  match v with VNone => true | _ => false end.

(** [isinstance(v, list)] *)
Definition isinstance_list (v : pyval) : bool :=
  match v with VList _ => true | _ => false end.

(** ** Dicts *)

Definition keys (d : dict) : list string := map fst d.

(** [d.get(k)]: [None] when the key is absent. *)
Fixpoint dict_get (d : dict) (k : string) : option pyval :=
  match d with
  | [] => None
  | (k', v) :: rest => if String.eqb k k' then Some v else dict_get rest k
  end.

(** [d[k] = v]: an existing key keeps its position, a new key goes last. *)
Fixpoint dict_set (d : dict) (k : string) (v : pyval) : dict :=
  match d with
  | [] => [(k, v)]
  | (k', v') :: rest =>
      if String.eqb k k' then (k', v) :: rest else (k', v') :: dict_set rest k v
  end.

(** [d.update(other)] *)
Definition dict_update (d other : dict) : dict :=
  fold_left (fun acc kv => dict_set acc (fst kv) (snd kv)) other d.

(** A dict display [{k1: v1, ..., kn: vn}]: the entries are stored left to
    right. *)
Definition dict_display (entries : list (string * pyval)) : dict :=
  dict_update [] entries.

Fixpoint mem_string (k : string) (l : list string) : bool :=
  match l with
  | [] => false
  | k' :: rest => String.eqb k k' || mem_string k rest
  end.

(** The invariant of a Python dict: no key occurs twice. *)
Fixpoint unique_keys (d : dict) : bool :=
  match d with
  | [] => true
  | (k, _) :: rest => negb (mem_string k (keys rest)) && unique_keys rest
  end.

(** ** Exceptions *)

Inductive exn : Type :=
| TypeError (msg : string)
| HTTPStatusError (status_code : Z)
| JSONDecodeError
| TransportError (msg : string)
| AttributeError (msg : string).

Definition result (A : Type) : Type := (exn + A)%type.

Definition rbind {A B : Type} (r : result A) (f : A -> result B) : result B :=
  match r with
  | inl e => inl e
  | inr a => f a
  end.

(** ** [json.dumps] with its default arguments *)

Definition quote : ascii := ascii_of_nat 34.
Definition backslash : ascii := ascii_of_nat 92.

Definition hex_digit (n : nat) : ascii :=
  if Nat.ltb n 10 then ascii_of_nat (48 + n) else ascii_of_nat (87 + n).

(** One character of [py_encode_basestring_ascii]: the quote, the backslash
    and everything outside [' '..'~'] are escaped. *)
Definition escape_char (c : ascii) : string :=
  let n := nat_of_ascii c in
  if Nat.eqb n 34 then String backslash (String quote EmptyString)
  else if Nat.eqb n 92 then String backslash (String backslash EmptyString)
  else if Nat.eqb n 8 then String backslash "b"
  else if Nat.eqb n 12 then String backslash "f"
  else if Nat.eqb n 10 then String backslash "n"
  else if Nat.eqb n 13 then String backslash "r"
  else if Nat.eqb n 9 then String backslash "t"
  else if (Nat.leb 32 n && Nat.leb n 126)%bool then String c EmptyString
  else String backslash
         (String "u" (String "0" (String "0"
            (String (hex_digit (Nat.div n 16))
               (String (hex_digit (Nat.modulo n 16)) EmptyString))))).

Fixpoint escape_string (s : string) : string :=
  match s with
  | EmptyString => EmptyString
  | String c rest => escape_char c ++ escape_string rest
  end.

Definition encode_str (s : string) : string :=
  String quote (escape_string s ++ String quote EmptyString).

(** [int.__repr__] *)
Definition encode_int (z : Z) : string :=
  NilZero.string_of_int (Z.to_int z).

(** [floatstr] of [json.encoder], with [allow_nan=True] *)
Definition encode_float (f : pyfloat) : string :=
  match f with
  | FNan => "NaN"
  | FInf => "Infinity"
  | FNegInf => "-Infinity"
  | FFinite repr => repr
  end.

(** [sep.join(parts)] *)
Fixpoint join (sep : string) (parts : list string) : string :=
  match parts with
  | [] => EmptyString
  | [p] => p
  | p :: rest => p ++ sep ++ join sep rest
  end.

(** The encoder proper.  It raises [TypeError] at the first object it cannot
    serialize, going left to right. *)
Fixpoint json_dumps (v : pyval) : result string :=
  match v with
  | VNone => inr "null"
  | VBool true => inr "true"
  | VBool false => inr "false"
  | VInt z => inr (encode_int z)
  | VFloat f => inr (encode_float f)
  | VStr s => inr (encode_str s)
  | VBytes _ => inl (TypeError "Object of type bytes is not JSON serializable")
  | VList items =>
      let fix elements (l : list pyval) : result (list string) :=
        match l with
        | [] => inr []
        | x :: rest =>
            rbind (json_dumps x) (fun sx =>
            rbind (elements rest) (fun srest => inr (sx :: srest)))
        end in
      rbind (elements items) (fun parts => inr ("[" ++ join ", " parts ++ "]"))
  | VDict items =>
      let fix members (l : list (string * pyval)) : result (list string) :=
        match l with
        | [] => inr []
        | (k, x) :: rest =>
            rbind (json_dumps x) (fun sx =>
            rbind (members rest) (fun srest =>
              inr ((encode_str k ++ ": " ++ sx) :: srest)))
        end in
      rbind (members items) (fun parts => inr ("{" ++ join ", " parts ++ "}"))
  end.

Definition json_serializable (v : pyval) : bool :=
  match json_dumps v with inr _ => true | inl _ => false end.

(** ** Parameter serialization, common part

    Both adapters carry their own copy of the helper
    ([serialize_params] as a loop, [serialize] as a dict comprehension);
    the value stored under a kept key is the same expression in both. *)

(** [json.dumps(v) if isinstance(v, list) else v] *)
Definition transport (v : pyval) : result pyval :=
  if isinstance_list v then rbind (json_dumps v) (fun s => inr (VStr s))
  else inr v.

(** [{key: value(k, v) for k, v in items if cond(k, v)}], the entries being
    stored one after the other into the dict under construction. *)
Fixpoint dict_comprehension (cond : string -> pyval -> bool)
    (value : string -> pyval -> result pyval)
    (items : list (string * pyval)) (acc : dict) : result dict :=
  match items with
  | [] => inr acc
  | (k, v) :: rest =>
      if cond k v
      then rbind (value k v) (fun x =>
             dict_comprehension cond value rest (dict_set acc k x))
      else dict_comprehension cond value rest acc
  end.

(** The entries a serialization keeps, in the order of the input: the
    reference the two helpers are compared with. *)
Fixpoint kept (items : list (string * pyval)) : result dict :=
  match items with
  | [] => inr []
  | (k, v) :: rest =>
      if is_None v then kept rest
      else rbind (transport v) (fun x =>
           rbind (kept rest) (fun r => inr ((k, x) :: r)))
  end.

(** Every list among the values of [d] can be encoded. *)
Definition list_values_serializable (d : dict) : bool :=
  forallb (fun kv => negb (isinstance_list (snd kv)) || json_serializable (snd kv)) d.

(** Every value of [d] can be encoded. *)
Definition values_serializable (d : dict) : bool :=
  forallb (fun kv => json_serializable (snd kv)) d.

(** ** The HTTP boundary *)

(** What a tool hands to the HTTP client: the arguments of
    [client.request(method, url, headers=, params=, json=)]; an argument
    that is not passed is [None]. *)
Record request : Type := mkRequest {
  method : string;
  url : string;
  headers : option dict;
  params : option dict;
  json : option pyval
}.

(** What the client hands back: the status code, [resp.text], and the
    outcome of [resp.json()], which raises when the body is not JSON. *)
Record response : Type := mkResponse {
  status_code : Z;
  text : string;
  resp_json : result pyval
}.

(** [resp.is_success] *)
Definition is_success (r : response) : bool :=
  (200 <=? status_code r) && (status_code r <=? 299).

(** The client and the remote side, seen from the tool: what comes back
    from a call of [client.request] may depend on every call made before
    it, and is either a response or an exception raised by the client
    without one, be it before sending (a request it refuses to build) or
    after (no connection, no answer). *)
Definition oracle : Type := list request -> request -> result response.

(** ** Process state and the tool monad *)

Section ToolMonad.

(** The module-level names of one adapter. *)
Variable G : Type.

Record process : Type := mkProcess {
  module_globals : G;
  environ : list (string * string);
  wire : list request
}.

(** A coroutine of the adapter: it runs against the oracle, may read and
    write the process state, and returns or raises. *)
Definition M (A : Type) : Type := oracle -> process -> result A * process.

Definition ret {A : Type} (a : A) : M A := fun _ p => (inr a, p).

Definition bind {A B : Type} (c : M A) (k : A -> M B) : M B :=
  fun net p =>
    match c net p with
    | (inl e, p') => (inl e, p')
    | (inr a, p') => k a net p'
    end.

Definition raise {A : Type} (e : exn) : M A := fun _ p => (inl e, p).

Definition lift {A : Type} (r : result A) : M A := fun _ p => (r, p).

(** Reading a module-level name. *)
Definition read {A : Type} (f : G -> A) : M A :=
  fun _ p => (inr (f (module_globals p)), p).

(** Rebinding or mutating a module-level name. *)
Definition write (f : G -> G) : M unit :=
  fun _ p => (inr tt, mkProcess (f (module_globals p)) (environ p) (wire p)).

(** [await client.request(...)] inside [async with httpx.AsyncClient()]:
    the request is handed to the client and recorded on the wire; a
    response comes back or the client raises.  The wire lists the calls of
    the client, whether or not the client went on to send. *)
Definition client_request (r : request) : M response :=
  fun net p =>
    (net (wire p) r, mkProcess (module_globals p) (environ p) (wire p ++ [r])).

(** [resp.raise_for_status()] *)
Definition raise_for_status (r : response) : M unit :=
  if is_success r then ret tt else raise (HTTPStatusError (status_code r)).

(** The requests an execution handed to the client. *)
Definition issued {A : Type} (c : M A) (net : oracle) (p : process)
  : list request :=
  skipn (List.length (wire p)) (wire (snd (c net p))).

End ToolMonad.

Arguments mkProcess {G}.
Arguments module_globals {G}.
Arguments environ {G}.
Arguments wire {G}.
Arguments ret {G A}.
Arguments bind {G A B}.
Arguments raise {G A}.
Arguments lift {G A}.
Arguments read {G A}.
Arguments write {G}.
Arguments client_request {G}.
Arguments raise_for_status {G}.
Arguments issued {G A}.

Notation "x <- c ;; k" := (bind c (fun x => k))
  (at level 61, c at next level, right associativity).
Notation "c ;;; k" := (bind c (fun _ => k))
  (at level 61, right associativity).

(** [os.getenv(name)] *)
Fixpoint os_getenv (env : list (string * string)) (name : string) : pyval :=
  match env with
  | [] => VNone
  | (k, v) :: rest => if String.eqb name k then VStr v else os_getenv rest name
  end.

(** The server object of the hosting framework, as far as the adapters use
    it: its name, the tools registered on it, and the attributes that have
    been set on the object since it was made.  Python looks an attribute up
    on the object itself first, and any code holding the object may set
    one; the class defines no attribute [ctx], the constructor and the
    registrations set none, and neither adapter ever assigns one. *)
Record FastMCP : Type := mkFastMCP {
  server_name : string;
  tools : list string;
  attributes : dict
}.

(** [FastMCP(name)] *)
Definition FastMCP_new (name : string) : FastMCP :=
  mkFastMCP name [] [].

(** [@mcp.tool()] on a function named [fname] *)
Definition register (mcp : FastMCP) (fname : string) : FastMCP :=
  mkFastMCP (server_name mcp) (tools mcp ++ [fname]) (attributes mcp).

(** What Python raises on [server.ctx]. *)
Definition no_ctx : exn :=
  AttributeError "'FastMCP' object has no attribute 'ctx'".

(** [server.ctx]: the attribute set on the object under that name, and
    [AttributeError] when there is none. *)
Definition FastMCP_ctx (server : FastMCP) : result pyval :=
  match dict_get (attributes server) "ctx" with
  | Some v => inr v
  | None => inl no_ctx
  end.

(** An argument with a default value: [None] is the omitted argument. *)
Definition or_default {A : Type} (default : A) (arg : option A) : A :=
  match arg with Some a => a | None => default end.

(** An [Optional[...]] argument as a value. *)
Definition optional {A : Type} (inj : A -> pyval) (arg : option A) : pyval :=
  match arg with Some a => inj a | None => VNone end.

Definition str_list (l : list string) : pyval := VList (map VStr l).

(** ** The crypto adapter, [binance_mcp.py] *)

Module Binance.

Record globals : Type := mkGlobals {
  mcp : FastMCP;
  BASE_URL : string
}.

Definition tool_names : list string :=
  [ "ExchangeInfoOfASymbol"; "ExchangeInfoOfAllSymbols"; "getTradeData";
    "AggTrades"; "TradeHistory"; "Depth"; "CurrentAvgPrice";
    "PriceTickerIn24Hr"; "TradingDayTicker"; "SymbolPriceTicker";
    "SymbolOrderBookTicker"; "RollingWindowTicker" ].

(** The module body: the server object, the base URL, then one
    registration per decorated function. *)
Definition import_module : globals :=
  mkGlobals
    (fold_left register tool_names (FastMCP_new "binance-trade"))
    "https://api.binance.com/api/v3/".

Definition tool (A : Type) : Type := M globals A.

(** The loop of [serialize_params], [out] being the dict built so far. *)
Fixpoint serialize_params_loop (items : list (string * pyval)) (out : dict)
  : result dict :=
  match items with
  | [] => inr out
  | (k, v) :: rest =>
      if is_None v then serialize_params_loop rest out
      else rbind (transport v) (fun x =>
             serialize_params_loop rest (dict_set out k x))
  end.

Definition serialize_params (params : dict) : result dict :=
  serialize_params_loop params [].

(** [await client.get(url, params=params)] *)
Definition client_get (url : string) (params : option dict) : tool response :=
  client_request (mkRequest "GET" url None params None).

Definition ExchangeInfoOfASymbol (symbol : string) : tool string :=
  base <- read BASE_URL ;;
  resp <- client_get (base ++ "exchangeInfo")
            (Some (dict_display [("symbol", VStr symbol)])) ;;
  raise_for_status resp ;;;
  ret (text resp).

Definition ExchangeInfoOfAllSymbols : tool string :=
  base <- read BASE_URL ;;
  resp <- client_get (base ++ "exchangeInfo") None ;;
  raise_for_status resp ;;;
  ret (text resp).

Definition getTradeData (symbol interval : string)
    (startTime endTime limit : option Z) : tool string :=
  params <- lift (serialize_params (dict_display
              [ ("symbol", VStr symbol);
                ("interval", VStr interval);
                ("startTime", optional VInt startTime);
                ("endTime", optional VInt endTime);
                ("limit", optional VInt limit) ])) ;;
  base <- read BASE_URL ;;
  resp <- client_get (base ++ "klines") (Some params) ;;
  raise_for_status resp ;;;
  ret (text resp).

Definition AggTrades (symbol : string) (limit : option Z) : tool string :=
  let limit := or_default 20 limit in
  base <- read BASE_URL ;;
  resp <- client_get (base ++ "aggTrades")
            (Some (dict_display [("symbol", VStr symbol); ("limit", VInt limit)])) ;;
  raise_for_status resp ;;;
  ret (text resp).

Definition TradeHistory (symbol : string) (limit : option Z) : tool string :=
  let limit := or_default 20 limit in
  base <- read BASE_URL ;;
  resp <- client_get (base ++ "historicalTrades")
            (Some (dict_display [("symbol", VStr symbol); ("limit", VInt limit)])) ;;
  raise_for_status resp ;;;
  ret (text resp).

Definition Depth (symbol : string) : tool string :=
  base <- read BASE_URL ;;
  resp <- client_get (base ++ "depth")
            (Some (dict_display [("symbol", VStr symbol)])) ;;
  raise_for_status resp ;;;
  ret (text resp).

Definition CurrentAvgPrice (symbol : string) : tool string :=
  base <- read BASE_URL ;;
  resp <- client_get (base ++ "avgPrice")
            (Some (dict_display [("symbol", VStr symbol)])) ;;
  raise_for_status resp ;;;
  ret (text resp).

Definition PriceTickerIn24Hr (symbol : string) : tool string :=
  base <- read BASE_URL ;;
  resp <- client_get (base ++ "ticker/24hr")
            (Some (dict_display [("symbol", VStr symbol)])) ;;
  raise_for_status resp ;;;
  ret (text resp).

Definition TradingDayTicker (symbols : list string) : tool string :=
  params <- lift (serialize_params (dict_display
              [("symbols", str_list symbols)])) ;;
  base <- read BASE_URL ;;
  resp <- client_get (base ++ "ticker/tradingDay") (Some params) ;;
  raise_for_status resp ;;;
  ret (text resp).

Definition SymbolPriceTicker (symbol : option string)
    (symbols : option (list string)) : tool string :=
  params <- lift (serialize_params (dict_display
              [ ("symbol", optional VStr symbol);
                ("symbols", optional str_list symbols) ])) ;;
  base <- read BASE_URL ;;
  resp <- client_get (base ++ "ticker/price") (Some params) ;;
  raise_for_status resp ;;;
  ret (text resp).

Definition SymbolOrderBookTicker (symbol : option string)
    (symbols : option (list string)) : tool string :=
  params <- lift (serialize_params (dict_display
              [ ("symbol", optional VStr symbol);
                ("symbols", optional str_list symbols) ])) ;;
  base <- read BASE_URL ;;
  resp <- client_get (base ++ "ticker/bookTicker") (Some params) ;;
  raise_for_status resp ;;;
  ret (text resp).

Definition RollingWindowTicker (symbol : option string)
    (symbols : option (list string)) (windowSize type : option string)
  : tool string :=
  params <- lift (serialize_params (dict_display
              [ ("symbol", optional VStr symbol);
                ("symbols", optional str_list symbols);
                ("windowSize", optional VStr windowSize);
                ("type", optional VStr type) ])) ;;
  base <- read BASE_URL ;;
  resp <- client_get (base ++ "ticker") (Some params) ;;
  raise_for_status resp ;;;
  ret (text resp).

(** What every tool of this adapter makes of the client's answer. *)
Definition answered (answer : result response) : result string :=
  match answer with
  | inl e => inl e
  | inr resp =>
      if is_success resp then inr (text resp)
      else inl (HTTPStatusError (status_code resp))
  end.

(** A tool invocation: the tool and its arguments as the framework passes
    them, typed as the signatures say. *)
Inductive invocation : Type :=
| Call_ExchangeInfoOfASymbol (symbol : string)
| Call_ExchangeInfoOfAllSymbols
| Call_getTradeData (symbol interval : string)
    (startTime endTime limit : option Z)
| Call_AggTrades (symbol : string) (limit : option Z)
| Call_TradeHistory (symbol : string) (limit : option Z)
| Call_Depth (symbol : string)
| Call_CurrentAvgPrice (symbol : string)
| Call_PriceTickerIn24Hr (symbol : string)
| Call_TradingDayTicker (symbols : list string)
| Call_SymbolPriceTicker (symbol : option string)
    (symbols : option (list string))
| Call_SymbolOrderBookTicker (symbol : option string)
    (symbols : option (list string))
| Call_RollingWindowTicker (symbol : option string)
    (symbols : option (list string)) (windowSize type : option string).

Definition invoke (i : invocation) : tool string :=
  match i with
  | Call_ExchangeInfoOfASymbol symbol => ExchangeInfoOfASymbol symbol
  | Call_ExchangeInfoOfAllSymbols => ExchangeInfoOfAllSymbols
  | Call_getTradeData symbol interval startTime endTime limit =>
      getTradeData symbol interval startTime endTime limit
  | Call_AggTrades symbol limit => AggTrades symbol limit
  | Call_TradeHistory symbol limit => TradeHistory symbol limit
  | Call_Depth symbol => Depth symbol
  | Call_CurrentAvgPrice symbol => CurrentAvgPrice symbol
  | Call_PriceTickerIn24Hr symbol => PriceTickerIn24Hr symbol
  | Call_TradingDayTicker symbols => TradingDayTicker symbols
  | Call_SymbolPriceTicker symbol symbols => SymbolPriceTicker symbol symbols
  | Call_SymbolOrderBookTicker symbol symbols =>
      SymbolOrderBookTicker symbol symbols
  | Call_RollingWindowTicker symbol symbols windowSize type =>
      RollingWindowTicker symbol symbols windowSize type
  end.

(** The arguments of an invocation under their parameter names, defaults
    applied, an absent optional argument being [None]. *)
Definition arguments (i : invocation) : list (string * pyval) :=
  match i with
  | Call_ExchangeInfoOfASymbol symbol => [("symbol", VStr symbol)]
  | Call_ExchangeInfoOfAllSymbols => []
  | Call_getTradeData symbol interval startTime endTime limit =>
      [ ("symbol", VStr symbol); ("interval", VStr interval);
        ("startTime", optional VInt startTime);
        ("endTime", optional VInt endTime);
        ("limit", optional VInt limit) ]
  | Call_AggTrades symbol limit | Call_TradeHistory symbol limit =>
      [("symbol", VStr symbol); ("limit", VInt (or_default 20 limit))]
  | Call_Depth symbol | Call_CurrentAvgPrice symbol
  | Call_PriceTickerIn24Hr symbol => [("symbol", VStr symbol)]
  | Call_TradingDayTicker symbols => [("symbols", str_list symbols)]
  | Call_SymbolPriceTicker symbol symbols
  | Call_SymbolOrderBookTicker symbol symbols =>
      [("symbol", optional VStr symbol); ("symbols", optional str_list symbols)]
  | Call_RollingWindowTicker symbol symbols windowSize type =>
      [ ("symbol", optional VStr symbol);
        ("symbols", optional str_list symbols);
        ("windowSize", optional VStr windowSize);
        ("type", optional VStr type) ]
  end.

End Binance.

(** ** The brokerage adapter, [dhan_mcp.py] *)

Module Dhan.

Record globals : Type := mkGlobals {
  BASE_URL : string;
  CLIENT_ID : pyval;
  ACCESS_TOKEN : pyval;
  HEADERS : dict;
  mcp : FastMCP
}.

Definition tool_names : list string :=
  [ "place_order"; "place_super_order"; "place_forever_order";
    "get_order_book"; "get_market_quote"; "get_option_chain";
    "get_historical_intraday"; "get_historical_daily"; "get_fund_balance";
    "get_account_details"; "get_holdings"; "get_positions";
    "get_portfolio_summary"; "calculate_margin"; "get_margin_benefits";
    "place_after_market_order"; "get_after_market_eligibility" ].

(** The module body, run once when the process starts: the base URL, the
    two credentials from the environment, the headers built from them, the
    server object and its registrations. *)
Definition import_module (env : list (string * string)) : globals :=
  let client_id := os_getenv env "DHAN_CLIENT_ID" in
  let access_token := os_getenv env "DHAN_ACCESS_TOKEN" in
  mkGlobals
    "https://api.dhan.co/v2"
    client_id
    access_token
    (dict_display [ ("Content-Type", VStr "application/json");
                    ("client-id", client_id);
                    ("access-token", access_token) ])
    (fold_left register tool_names (FastMCP_new "DhanHQ-v2")).

Definition tool (A : Type) : Type := M globals A.

(** [serialize]: one dict comprehension. *)
Definition serialize (params : dict) : result dict :=
  dict_comprehension (fun _ v => negb (is_None v)) (fun _ v => transport v)
    params [].

(** [params or {}] *)
Definition or_empty (params : option dict) : dict :=
  match params with
  | Some (entry :: rest) => entry :: rest
  | Some [] | None => []
  end.

Definition call_api (ctx : pyval) (method path : string)
    (params : option dict) (json_body : option pyval) : tool pyval :=
  base <- read BASE_URL ;;
  let url := base ++ path in
  hdrs <- read HEADERS ;;
  query <- lift (serialize (or_empty params)) ;;
  resp <- client_request (mkRequest method url (Some hdrs) (Some query) json_body) ;;
  raise_for_status resp ;;;
  lift (resp_json resp).

(** [mcp.ctx], evaluated as the first argument of every [call_api(...)]
    in the tools. *)
Definition mcp_ctx : tool pyval :=
  server <- read mcp ;;
  lift (FastMCP_ctx server).

(** *** I. Order management *)

Definition place_order (symbol : string) (qty price : pyfloat)
    (side product_type order_type : string) (kwargs : dict) : tool pyval :=
  let body := dict_display
    [ ("symbol", VStr symbol); ("quantity", VFloat qty);
      ("price", VFloat price); ("side", VStr side);
      ("productType", VStr product_type); ("orderType", VStr order_type) ] in
  let body := dict_update body kwargs in
  c <- mcp_ctx ;;
  call_api c "POST" "/orders" None (Some (VDict body)).

Definition place_super_order (symbol : string) (qty entry_price : pyfloat)
    (targets : list pyval) (stop_loss : pyfloat) : tool pyval :=
  let body := dict_display
    [ ("symbol", VStr symbol); ("quantity", VFloat qty);
      ("entryPrice", VFloat entry_price); ("targets", VList targets);
      ("stopLoss", VFloat stop_loss) ] in
  c <- mcp_ctx ;;
  call_api c "POST" "/super-order" None (Some (VDict body)).

Definition place_forever_order (symbol : string) (quantity price : pyfloat)
    (side : string) (oco : option bool) : tool pyval :=
  let oco := or_default false oco in
  let body := dict_display
    [ ("symbol", VStr symbol); ("quantity", VFloat quantity);
      ("price", VFloat price); ("side", VStr side); ("oco", VBool oco) ] in
  c <- mcp_ctx ;;
  call_api c "POST" "/forever-order" None (Some (VDict body)).

Definition get_order_book : tool pyval :=
  c <- mcp_ctx ;;
  call_api c "GET" "/orders" None None.

(** *** II. Market data *)

Definition get_market_quote (symbols : list string) : tool pyval :=
  c <- mcp_ctx ;;
  call_api c "GET" "/market-quote"
    (Some (dict_display [("symbols", str_list symbols)])) None.

Definition get_option_chain (underlying : string) : tool pyval :=
  c <- mcp_ctx ;;
  call_api c "GET" "/option-chain"
    (Some (dict_display [("underlying", VStr underlying)])) None.

Definition get_historical_intraday (instrument : string) (from_ts to_ts : Z)
    (timeframe : option string) : tool pyval :=
  let timeframe := or_default "1m" timeframe in
  let params := dict_display
    [ ("instrument", VStr instrument); ("from", VInt from_ts);
      ("to", VInt to_ts); ("timeframe", VStr timeframe) ] in
  c <- mcp_ctx ;;
  call_api c "POST" "/charts/intraday" None (Some (VDict params)).

Definition get_historical_daily (instrument from_date to_date : string)
  : tool pyval :=
  let params := dict_display
    [ ("instrument", VStr instrument); ("from", VStr from_date);
      ("to", VStr to_date) ] in
  c <- mcp_ctx ;;
  call_api c "POST" "/charts/daily" None (Some (VDict params)).

(** *** III. Account information *)

Definition get_fund_balance : tool pyval :=
  c <- mcp_ctx ;;
  call_api c "GET" "/user/funds" None None.

Definition get_account_details : tool pyval :=
  c <- mcp_ctx ;;
  call_api c "GET" "/user/profile" None None.

(** *** IV. Portfolio management *)

Definition get_holdings : tool pyval :=
  c <- mcp_ctx ;;
  call_api c "GET" "/holdings" None None.

Definition get_positions : tool pyval :=
  c <- mcp_ctx ;;
  call_api c "GET" "/positions" None None.

Definition get_portfolio_summary : tool pyval :=
  c <- mcp_ctx ;;
  call_api c "GET" "/portfolio/summary" None None.

(** *** V. Margin calculator *)

Definition calculate_margin (symbol : string) (qty price : pyfloat)
    (order_type product_type : option string) : tool pyval :=
  let order_type := or_default "LIMIT" order_type in
  let product_type := or_default "INTRADAY" product_type in
  let body := dict_display
    [ ("symbol", VStr symbol); ("quantity", VFloat qty);
      ("price", VFloat price); ("orderType", VStr order_type);
      ("productType", VStr product_type) ] in
  c <- mcp_ctx ;;
  call_api c "POST" "/margin/calculate" None (Some (VDict body)).

Definition get_margin_benefits (symbols : list string) : tool pyval :=
  c <- mcp_ctx ;;
  call_api c "GET" "/margin/benefits"
    (Some (dict_display [("symbols", str_list symbols)])) None.

(** *** VI. After-market orders *)

Definition place_after_market_order (symbol : string) (qty price : pyfloat)
    (side : string) (product_type : option string) : tool pyval :=
  let product_type := or_default "DELIVERY" product_type in
  let body := dict_display
    [ ("symbol", VStr symbol); ("quantity", VFloat qty);
      ("price", VFloat price); ("side", VStr side);
      ("productType", VStr product_type); ("afterMarket", VBool true) ] in
  c <- mcp_ctx ;;
  call_api c "POST" "/orders" None (Some (VDict body)).

Definition get_after_market_eligibility (symbols : list string) : tool pyval :=
  c <- mcp_ctx ;;
  call_api c "GET" "/market/after-hours-eligibility"
    (Some (dict_display [("symbols", str_list symbols)])) None.

(** What [call_api] makes of the client's answer. *)
Definition answered (answer : result response) : result pyval :=
  match answer with
  | inl e => inl e
  | inr resp =>
      if is_success resp then resp_json resp
      else inl (HTTPStatusError (status_code resp))
  end.

(** A tool invocation: the tool and its arguments as the framework passes
    them, typed as the signatures say. *)
Inductive invocation : Type :=
| Call_place_order (symbol : string) (qty price : pyfloat)
    (side product_type order_type : string) (kwargs : dict)
| Call_place_super_order (symbol : string) (qty entry_price : pyfloat)
    (targets : list pyval) (stop_loss : pyfloat)
| Call_place_forever_order (symbol : string) (quantity price : pyfloat)
    (side : string) (oco : option bool)
| Call_get_order_book
| Call_get_market_quote (symbols : list string)
| Call_get_option_chain (underlying : string)
| Call_get_historical_intraday (instrument : string) (from_ts to_ts : Z)
    (timeframe : option string)
| Call_get_historical_daily (instrument from_date to_date : string)
| Call_get_fund_balance
| Call_get_account_details
| Call_get_holdings
| Call_get_positions
| Call_get_portfolio_summary
| Call_calculate_margin (symbol : string) (qty price : pyfloat)
    (order_type product_type : option string)
| Call_get_margin_benefits (symbols : list string)
| Call_place_after_market_order (symbol : string) (qty price : pyfloat)
    (side : string) (product_type : option string)
| Call_get_after_market_eligibility (symbols : list string).

Definition invoke (i : invocation) : tool pyval :=
  match i with
  | Call_place_order symbol qty price side product_type order_type kwargs =>
      place_order symbol qty price side product_type order_type kwargs
  | Call_place_super_order symbol qty entry_price targets stop_loss =>
      place_super_order symbol qty entry_price targets stop_loss
  | Call_place_forever_order symbol quantity price side oco =>
      place_forever_order symbol quantity price side oco
  | Call_get_order_book => get_order_book
  | Call_get_market_quote symbols => get_market_quote symbols
  | Call_get_option_chain underlying => get_option_chain underlying
  | Call_get_historical_intraday instrument from_ts to_ts timeframe =>
      get_historical_intraday instrument from_ts to_ts timeframe
  | Call_get_historical_daily instrument from_date to_date =>
      get_historical_daily instrument from_date to_date
  | Call_get_fund_balance => get_fund_balance
  | Call_get_account_details => get_account_details
  | Call_get_holdings => get_holdings
  | Call_get_positions => get_positions
  | Call_get_portfolio_summary => get_portfolio_summary
  | Call_calculate_margin symbol qty price order_type product_type =>
      calculate_margin symbol qty price order_type product_type
  | Call_get_margin_benefits symbols => get_margin_benefits symbols
  | Call_place_after_market_order symbol qty price side product_type =>
      place_after_market_order symbol qty price side product_type
  | Call_get_after_market_eligibility symbols =>
      get_after_market_eligibility symbols
  end.

(** The tools that place an order: the four [place_*] functions. *)
Definition places_order (i : invocation) : bool :=
  match i with
  | Call_place_order _ _ _ _ _ _ _ | Call_place_super_order _ _ _ _ _
  | Call_place_forever_order _ _ _ _ _
  | Call_place_after_market_order _ _ _ _ _ => true
  | _ => false
  end.

(** The tools that fetch data: the [get_*] functions. *)
Definition fetches_data (i : invocation) : bool :=
  match i with
  | Call_get_order_book | Call_get_market_quote _ | Call_get_option_chain _
  | Call_get_historical_intraday _ _ _ _ | Call_get_historical_daily _ _ _
  | Call_get_fund_balance | Call_get_account_details | Call_get_holdings
  | Call_get_positions | Call_get_portfolio_summary
  | Call_get_margin_benefits _ | Call_get_after_market_eligibility _ => true
  | _ => false
  end.

(** The tools whose source line passes ["POST"] to [call_api]. *)
Definition passes_POST (i : invocation) : bool :=
  match i with
  | Call_place_order _ _ _ _ _ _ _ | Call_place_super_order _ _ _ _ _
  | Call_place_forever_order _ _ _ _ _
  | Call_get_historical_intraday _ _ _ _ | Call_get_historical_daily _ _ _
  | Call_calculate_margin _ _ _ _ _
  | Call_place_after_market_order _ _ _ _ _ => true
  | _ => false
  end.

(** The arguments of a data-fetching invocation under their parameter
    names. *)
Definition arguments (i : invocation) : list (string * pyval) :=
  match i with
  | Call_get_market_quote symbols | Call_get_margin_benefits symbols
  | Call_get_after_market_eligibility symbols =>
      [("symbols", str_list symbols)]
  | Call_get_option_chain underlying => [("underlying", VStr underlying)]
  | Call_get_historical_intraday instrument from_ts to_ts timeframe =>
      [ ("instrument", VStr instrument); ("from_ts", VInt from_ts);
        ("to_ts", VInt to_ts); ("timeframe", VStr (or_default "1m" timeframe)) ]
  | Call_get_historical_daily instrument from_date to_date =>
      [ ("instrument", VStr instrument); ("from_date", VStr from_date);
        ("to_date", VStr to_date) ]
  | _ => []
  end.

End Dhan.

(** ** Notions used in the statements *)

(** The entry of the output under [k], read off the entry of the input. *)
Definition entry_agrees (d out : dict) (k : string) : Prop :=
  match dict_get d k with
  | None => dict_get out k = None
  | Some v =>
      if is_None v then dict_get out k = None
      else exists x, transport v = inr x /\ dict_get out k = Some x
  end.

(** The output of either helper, described entry by entry. *)
Definition serialized (d out : dict) : Prop :=
  unique_keys out = true /\
  (forall k, In k (keys out) <->
             exists v, dict_get d k = Some v /\ is_None v = false) /\
  (forall k l, dict_get d k = Some (VList l) ->
               exists s, json_dumps (VList l) = inr s /\
                         dict_get out k = Some (VStr s)) /\
  (forall k v, dict_get d k = Some v -> is_None v = false ->
               isinstance_list v = false -> dict_get out k = Some v).

(** No value of [d] is [None] or a list. *)
Definition plain_values (d : dict) : bool :=
  forallb (fun kv => negb (is_None (snd kv)) && negb (isinstance_list (snd kv))) d.

(** A query carries the arguments [args]: every argument that is not
    [None] is found under its name, a list in its JSON encoding. *)
Definition query_carries (args : list (string * pyval)) (r : request) : Prop :=
  forall k v, In (k, v) args -> is_None v = false ->
    exists q x, params r = Some q /\ transport v = inr x /\ dict_get q k = Some x.

(** A process right after the module was imported, with whatever is on the
    wire already. *)
Definition binance_process (env : list (string * string))
    (sent : list request) : process Binance.globals :=
  mkProcess Binance.import_module env sent.

Definition dhan_process (start_env : list (string * string))
    (env : list (string * string)) (sent : list request)
  : process Dhan.globals :=
  mkProcess (Dhan.import_module start_env) env sent.

(** What [mcp.ctx] finds in the module [g]. *)
Definition ctx_set (g : Dhan.globals) : option pyval :=
  dict_get (attributes (Dhan.mcp g)) "ctx".

(** The module [g] after code outside it (a test, the framework) has set
    attributes on its server object. *)
Definition with_attributes (attrs : dict) (g : Dhan.globals) : Dhan.globals :=
  Dhan.mkGlobals (Dhan.BASE_URL g) (Dhan.CLIENT_ID g) (Dhan.ACCESS_TOKEN g)
    (Dhan.HEADERS g)
    (mkFastMCP (server_name (Dhan.mcp g)) (tools (Dhan.mcp g)) attrs).

(** The request [call_api] builds from the module globals, its arguments
    and the serialized query. *)
Definition api_request (g : Dhan.globals) (verb path : string) (query : dict)
    (json_body : option pyval) : request :=
  mkRequest verb (Dhan.BASE_URL g ++ path) (Some (Dhan.HEADERS g)) (Some query)
    json_body.

(** One use of the brokerage module: a tool invocation dispatched by the
    framework, or a call of [call_api] itself. *)
Inductive dhan_step : Type :=
| Step_tool (i : Dhan.invocation)
| Step_call_api (ctx : pyval) (verb path : string) (params : option dict)
    (json_body : option pyval).

Definition dhan_step_run (s : dhan_step) (net : oracle)
    (p : process Dhan.globals) : process Dhan.globals :=
  match s with
  | Step_tool i => snd (Dhan.invoke i net p)
  | Step_call_api ctx verb path params json_body =>
      snd (Dhan.call_api ctx verb path params json_body net p)
  end.

(** Uses of the brokerage module one after the other, each preceded by
    whatever the environment has become. *)
Fixpoint dhan_run (steps : list (list (string * string) * dhan_step))
    (net : oracle) (p : process Dhan.globals) : process Dhan.globals :=
  match steps with
  | [] => p
  | (env, s) :: rest =>
      dhan_run rest net
        (dhan_step_run s net (mkProcess (module_globals p) env (wire p)))
  end.

(** ** Sample inputs *)

Definition sample_params : dict :=
  [ ("symbol", VStr "BTCUSDT");
    ("symbols", VList [VStr "BTCUSDT"; VStr "ETHUSDT"]);
    ("windowSize", VNone);
    ("limit", VInt 5) ].

Definition unencodable_params : dict := [("symbols", VList [VBytes "x"])].

Definition sample_env : list (string * string) :=
  [("DHAN_CLIENT_ID", "1000000001"); ("DHAN_ACCESS_TOKEN", "secret")].

Definition sample_intraday_call : Dhan.invocation :=
  Dhan.Call_get_historical_intraday "NIFTY" 1700000000 1700003600 None.

Definition sample_intraday_body : dict :=
  [ ("instrument", VStr "NIFTY"); ("from", VInt 1700000000);
    ("to", VInt 1700003600); ("timeframe", VStr "1m") ].

(** The brokerage process once [mcp.ctx] has been set from outside. *)
Definition patched_process : process Dhan.globals :=
  mkProcess (with_attributes [("ctx", VNone)] (Dhan.import_module sample_env))
    sample_env [].

Definition sample_headers : dict :=
  [ ("Content-Type", VStr "application/json");
    ("client-id", VStr "1000000001");
    ("access-token", VStr "secret") ].

(** A remote side that answers every request alike. *)
Definition constant_server (status : Z) (body : string)
    (parsed : result pyval) : oracle :=
  fun _ _ => inr (mkResponse status body parsed).

(** A remote side that answers every request with status 200 and a body
    that is not JSON. *)
Definition plain_text_server : oracle :=
  fun _ _ => inr (mkResponse 200 "OK" (inl JSONDecodeError)).

(** A client that never gets through. *)
Definition unreachable_server : oracle :=
  fun _ _ => inl (TransportError "connection refused").

(** ** Notions used in the further properties *)

(** [r] is a value, not an exception. *)
Definition returns {A : Type} (r : result A) : bool :=
  match r with inr _ => true | inl _ => false end.

(** The test of both helpers: the value is kept. *)
Definition not_None (kv : string * pyval) : bool := negb (is_None (snd kv)).

Definition mixed_params : dict :=
  [ ("symbol", VStr "BTCUSDT");
    ("depth", VList [VInt 5; VInt 10]);
    ("symbols", VList [VStr "A"; VBytes "x"]);
    ("window", VList [VBytes "y"]) ].

Definition falsy_params : dict :=
  [ ("limit", VInt 0); ("symbol", VStr ""); ("raw", VBytes "x");
    ("oco", VBool false); ("body", VDict [("ids", VList [])]) ].

(** The six fields of [place_order], as its body starts out. *)
Definition order_fields (symbol : string) (qty price : pyfloat)
    (side product_type order_type : string) : dict :=
  [ ("symbol", VStr symbol); ("quantity", VFloat qty);
    ("price", VFloat price); ("side", VStr side);
    ("productType", VStr product_type); ("orderType", VStr order_type) ].

(** The parameter names of [place_order]: Python binds an argument of one
    of these names to the parameter, so none of them is a key of
    [kwargs]. *)
Definition place_order_parameters : list string :=
  ["symbol"; "qty"; "price"; "side"; "product_type"; "order_type"].

(** [kwargs] as [place_order] can receive it. *)
Definition kwargs_fit (kwargs : dict) : bool :=
  unique_keys kwargs
  && forallb (fun k => negb (mem_string k place_order_parameters)) (keys kwargs).

Definition sample_kwargs : dict :=
  [("validity", VStr "DAY"); ("quantity", VInt 25); ("tag", VNone)].

(** The function an invocation calls, by name. *)
Definition binance_tool_of (i : Binance.invocation) : string :=
  match i with
  | Binance.Call_ExchangeInfoOfASymbol _ => "ExchangeInfoOfASymbol"
  | Binance.Call_ExchangeInfoOfAllSymbols => "ExchangeInfoOfAllSymbols"
  | Binance.Call_getTradeData _ _ _ _ _ => "getTradeData"
  | Binance.Call_AggTrades _ _ => "AggTrades"
  | Binance.Call_TradeHistory _ _ => "TradeHistory"
  | Binance.Call_Depth _ => "Depth"
  | Binance.Call_CurrentAvgPrice _ => "CurrentAvgPrice"
  | Binance.Call_PriceTickerIn24Hr _ => "PriceTickerIn24Hr"
  | Binance.Call_TradingDayTicker _ => "TradingDayTicker"
  | Binance.Call_SymbolPriceTicker _ _ => "SymbolPriceTicker"
  | Binance.Call_SymbolOrderBookTicker _ _ => "SymbolOrderBookTicker"
  | Binance.Call_RollingWindowTicker _ _ _ _ => "RollingWindowTicker"
  end.

Definition dhan_tool_of (i : Dhan.invocation) : string :=
  match i with
  | Dhan.Call_place_order _ _ _ _ _ _ _ => "place_order"
  | Dhan.Call_place_super_order _ _ _ _ _ => "place_super_order"
  | Dhan.Call_place_forever_order _ _ _ _ _ => "place_forever_order"
  | Dhan.Call_get_order_book => "get_order_book"
  | Dhan.Call_get_market_quote _ => "get_market_quote"
  | Dhan.Call_get_option_chain _ => "get_option_chain"
  | Dhan.Call_get_historical_intraday _ _ _ _ => "get_historical_intraday"
  | Dhan.Call_get_historical_daily _ _ _ => "get_historical_daily"
  | Dhan.Call_get_fund_balance => "get_fund_balance"
  | Dhan.Call_get_account_details => "get_account_details"
  | Dhan.Call_get_holdings => "get_holdings"
  | Dhan.Call_get_positions => "get_positions"
  | Dhan.Call_get_portfolio_summary => "get_portfolio_summary"
  | Dhan.Call_calculate_margin _ _ _ _ _ => "calculate_margin"
  | Dhan.Call_get_margin_benefits _ => "get_margin_benefits"
  | Dhan.Call_place_after_market_order _ _ _ _ _ => "place_after_market_order"
  | Dhan.Call_get_after_market_eligibility _ => "get_after_market_eligibility"
  end.

(** The remote side [net] with the outcome of [resp.json()] replaced. *)
Definition reparsed (parse : response -> result pyval) (net : oracle) : oracle :=
  fun sent r =>
    match net sent r with
    | inl e => inl e
    | inr resp => inr (mkResponse (status_code resp) (text resp) (parse resp))
    end.

(** The remote side [net] with [resp.text] replaced. *)
Definition retexted (body : response -> string) (net : oracle) : oracle :=
  fun sent r =>
    match net sent r with
    | inl e => inl e
    | inr resp => inr (mkResponse (status_code resp) (body resp) (resp_json resp))
    end.

(** The invocations of the crypto adapter that the framework dispatches
    one after the other. *)
Fixpoint binance_session (calls : list Binance.invocation) (net : oracle)
    (p : process Binance.globals) : process Binance.globals :=
  match calls with
  | [] => p
  | i :: rest => binance_session rest net (snd (Binance.invoke i net p))
  end.

(** The value of a lower-case hexadecimal digit. *)
Definition hex_value (c : ascii) : option nat :=
  let n := nat_of_ascii c in
  if (Nat.leb 48 n && Nat.leb n 57)%bool then Some (n - 48)%nat
  else if (Nat.leb 97 n && Nat.leb n 102)%bool then Some (n - 87)%nat
  else None.

(** Reading back the first character of an escaped string: the inverse of
    [escape_char] at the head of a text.  A bare quote is no character. *)
Definition unescape_head (s : string) : option (ascii * string) :=
  match s with
  | EmptyString => None
  | String c rest =>
      if Ascii.eqb c quote then None
      else if Ascii.eqb c backslash then
        match rest with
        | EmptyString => None
        | String d rest1 =>
            if Ascii.eqb d quote then Some (quote, rest1)
            else if Ascii.eqb d backslash then Some (backslash, rest1)
            else if Ascii.eqb d "b" then Some (ascii_of_nat 8, rest1)
            else if Ascii.eqb d "f" then Some (ascii_of_nat 12, rest1)
            else if Ascii.eqb d "n" then Some (ascii_of_nat 10, rest1)
            else if Ascii.eqb d "r" then Some (ascii_of_nat 13, rest1)
            else if Ascii.eqb d "t" then Some (ascii_of_nat 9, rest1)
            else if Ascii.eqb d "u" then
              match rest1 with
              | String _ (String _ (String hi (String lo rest2))) =>
                  match hex_value hi, hex_value lo with
                  | Some a, Some b => Some (ascii_of_nat (16 * a + b), rest2)
                  | _, _ => None
                  end
              | _ => None
              end
            else None
        end
      else Some (c, rest)
  end.

(** A character [json.dumps] writes as it is. *)
Definition plain_char (c : ascii) : bool :=
  let n := nat_of_ascii c in
  (Nat.leb 32 n && Nat.leb n 126 && negb (Nat.eqb n 34) && negb (Nat.eqb n 92))%bool.

Fixpoint plain_string (s : string) : bool :=
  match s with
  | EmptyString => true
  | String c rest => plain_char c && plain_string rest
  end.

(** [s] between double quotes. *)
Definition quoted (s : string) : string :=
  String quote (s ++ String quote EmptyString).

(** * Properties *)

(** ** [json.dumps] on samples *)

Example json_dumps_symbols :
  json_dumps (VList [VStr "BTCUSDT"; VStr "ETHUSDT"])
  = inr (String "[" (encode_str "BTCUSDT" ++ ", " ++ encode_str "ETHUSDT" ++ "]")).
Proof. reflexivity. Qed.

Example json_dumps_nested :
  json_dumps (VList [VInt (-12); VBool true; VNone; VList []; VFloat (FFinite "1.5")])
  = inr "[-12, true, null, [], 1.5]".
Proof. reflexivity. Qed.

Example json_dumps_bytes :
  json_dumps (VList [VInt 1; VBytes "x"])
  = inl (TypeError "Object of type bytes is not JSON serializable").
Proof. reflexivity. Qed.

(** ** Dicts *)

Lemma mem_string_In k l : mem_string k l = true <-> In k l.
Proof.
  induction l as [|k' l IH]; simpl.
  - split; [discriminate | tauto].
  - rewrite orb_true_iff, IH, String.eqb_eq. split; intros [H|H]; auto.
Qed.

Lemma unique_keys_NoDup d : unique_keys d = true <-> NoDup (keys d).
Proof.
  induction d as [|[k v] d IH]; simpl.
  - split; [constructor | reflexivity].
  - rewrite andb_true_iff, negb_true_iff, IH. split.
    + intros [Hk Hd]. constructor; [|exact Hd].
      intro Hin. apply mem_string_In in Hin. congruence.
    + intro H. inversion H as [|? ? Hk Hd]; subst. split; [|exact Hd].
      destruct (mem_string k (keys d)) eqn:E; [|reflexivity].
      apply mem_string_In in E. contradiction.
Qed.

Lemma keys_app (d1 d2 : dict) : keys (d1 ++ d2)%list = (keys d1 ++ keys d2)%list.
Proof. apply map_app. Qed.

Lemma dict_get_None d k : dict_get d k = None <-> ~ In k (keys d).
Proof.
  induction d as [|[k' v] d IH]; simpl.
  - tauto.
  - destruct (String.eqb_spec k k') as [->|Hne].
    + split; [discriminate | intro H; exfalso; apply H; auto].
    + rewrite IH. split; intros H; [intros [E|E]; [congruence | auto] | auto].
Qed.

Lemma dict_get_In_keys d k v : dict_get d k = Some v -> In k (keys d).
Proof.
  intro H. destruct (in_dec string_dec k (keys d)) as [Hin|Hn]; [exact Hin|].
  apply dict_get_None in Hn. congruence.
Qed.

Lemma In_keys_dict_get d k : In k (keys d) -> exists v, dict_get d k = Some v.
Proof.
  intro H. destruct (dict_get d k) as [v|] eqn:E; [eauto|].
  apply dict_get_None in E. contradiction.
Qed.

Lemma dict_set_fresh d k v : ~ In k (keys d) -> dict_set d k v = (d ++ [(k, v)])%list.
Proof.
  induction d as [|[k' v'] d IH]; simpl; intro H.
  - reflexivity.
  - destruct (String.eqb_spec k k') as [->|Hne].
    + exfalso. apply H. auto.
    + rewrite IH; [reflexivity | tauto].
Qed.

(** ** The two helpers against the reference *)

Lemma comprehension_kept items : forall acc,
  NoDup (keys acc ++ keys items)%list ->
  dict_comprehension (fun _ v => negb (is_None v)) (fun _ v => transport v) items acc
  = rbind (kept items) (fun r => inr (acc ++ r)%list).
Proof.
  induction items as [|[k v] rest IH]; intros acc Hnd; simpl.
  - rewrite app_nil_r. reflexivity.
  - destruct (is_None v); simpl.
    + apply IH. simpl in Hnd. eapply NoDup_remove_1. exact Hnd.
    + destruct (transport v) as [e|x]; simpl; [reflexivity|].
      simpl in Hnd.
      rewrite dict_set_fresh.
      * rewrite IH.
        -- destruct (kept rest) as [e|r]; simpl; [reflexivity|].
           rewrite <- app_assoc. reflexivity.
        -- rewrite keys_app. simpl. rewrite <- app_assoc. exact Hnd.
      * apply NoDup_remove_2 in Hnd. intro Hin. apply Hnd.
        apply in_or_app. auto.
Qed.

Lemma loop_is_comprehension items : forall out,
  Binance.serialize_params_loop items out
  = dict_comprehension (fun _ v => negb (is_None v)) (fun _ v => transport v) items out.
Proof.
  induction items as [|[k v] rest IH]; intro out; simpl.
  - reflexivity.
  - destruct (is_None v); simpl; [apply IH|].
    destruct (transport v); simpl; [reflexivity | apply IH].
Qed.

Lemma rbind_ret {A : Type} (r : result A) : rbind r (fun a => inr a) = r.
Proof. destruct r; reflexivity. Qed.

Lemma serialize_params_kept d :
  unique_keys d = true -> Binance.serialize_params d = kept d.
Proof.
  intro H. unfold Binance.serialize_params.
  rewrite loop_is_comprehension, comprehension_kept.
  - apply rbind_ret.
  - simpl. apply unique_keys_NoDup. exact H.
Qed.

Lemma serialize_kept d :
  unique_keys d = true -> Dhan.serialize d = kept d.
Proof.
  intro H. unfold Dhan.serialize. rewrite comprehension_kept.
  - apply rbind_ret.
  - simpl. apply unique_keys_NoDup. exact H.
Qed.

(** ** What the reference keeps *)

Lemma kept_total d :
  list_values_serializable d = true -> exists out, kept d = inr out.
Proof.
  induction d as [|[k v] d IH]; simpl; intro H.
  - eauto.
  - apply andb_true_iff in H. destruct H as [Hv Hd].
    destruct (IH Hd) as [r Hr]. rewrite Hr.
    destruct (is_None v); [eauto|].
    unfold transport. unfold json_serializable in Hv.
    destruct (isinstance_list v); simpl in *.
    + destruct (json_dumps v); [discriminate|]. simpl. eauto.
    + eauto.
Qed.

Lemma kept_keys_subset d : forall out k,
  kept d = inr out -> In k (keys out) -> In k (keys d).
Proof.
  induction d as [|[k' v] d IH]; simpl; intros out k H Hin.
  - inversion H; subst. exact Hin.
  - destruct (is_None v).
    + right. eapply IH; eauto.
    + destruct (transport v) as [e|x]; simpl in H; [discriminate|].
      destruct (kept d) as [e|r]; simpl in H; [discriminate|].
      inversion H; subst. simpl in Hin. destruct Hin as [E|Hin]; [auto|].
      right. eapply IH; eauto.
Qed.

Lemma kept_unique d : forall out,
  NoDup (keys d) -> kept d = inr out -> NoDup (keys out).
Proof.
  induction d as [|[k v] d IH]; simpl; intros out Hnd H.
  - inversion H; subst. constructor.
  - inversion Hnd as [|? ? Hk Hd]; subst.
    destruct (is_None v); [auto|].
    destruct (transport v) as [e|x]; simpl in H; [discriminate|].
    destruct (kept d) as [e|r] eqn:Hr; simpl in H; [discriminate|].
    inversion H; subst. simpl. constructor; [|auto].
    intro Hin. apply Hk. eapply kept_keys_subset; eauto.
Qed.

Lemma kept_get d : forall out,
  NoDup (keys d) -> kept d = inr out -> forall k, entry_agrees d out k.
Proof.
  unfold entry_agrees.
  induction d as [|[k' v] d IH]; simpl; intros out Hnd H k.
  - inversion H; subst. reflexivity.
  - inversion Hnd as [|? ? Hk Hd]; subst.
    destruct (is_None v) eqn:Hv.
    + destruct (String.eqb_spec k k') as [->|Hne].
      * rewrite Hv. apply dict_get_None. intro Hin. apply Hk.
        eapply kept_keys_subset; eauto.
      * apply IH; assumption.
    + destruct (transport v) as [e|x] eqn:Hx; simpl in H; [discriminate|].
      destruct (kept d) as [e|r] eqn:Hr; simpl in H; [discriminate|].
      inversion H; subst. simpl.
      destruct (String.eqb_spec k k') as [->|Hne].
      * rewrite Hv. eauto.
      * apply IH; [assumption | reflexivity].
Qed.

Lemma transport_list l x :
  transport (VList l) = inr x ->
  exists s, json_dumps (VList l) = inr s /\ x = VStr s.
Proof.
  unfold transport. simpl isinstance_list. cbv iota.
  destruct (json_dumps (VList l)) as [e|s]; simpl; intro H; [discriminate|].
  inversion H. eauto.
Qed.

Lemma transport_other v :
  isinstance_list v = false -> transport v = inr v.
Proof. unfold transport. intros ->. reflexivity. Qed.

Lemma kept_serialized d out :
  unique_keys d = true -> kept d = inr out -> serialized d out.
Proof.
  intros Hu H. apply unique_keys_NoDup in Hu.
  pose proof (kept_get d out Hu H) as Hget. unfold entry_agrees in Hget.
  repeat split.
  - apply unique_keys_NoDup. eapply kept_unique; eauto.
  - intro Hin. apply In_keys_dict_get in Hin. destruct Hin as [x Hx].
    specialize (Hget k). destruct (dict_get d k) as [v|]; [|congruence].
    exists v. split; [reflexivity|].
    destruct (is_None v); [congruence | reflexivity].
  - intros [v [Hv Hn]]. specialize (Hget k). rewrite Hv, Hn in Hget.
    destruct Hget as [x [_ Hx]]. eapply dict_get_In_keys; eauto.
  - intros k l Hl. specialize (Hget k). rewrite Hl in Hget. simpl in Hget.
    destruct Hget as [x [Hx Hk]]. apply transport_list in Hx.
    destruct Hx as [s [Hs ->]]. eauto.
  - intros k v Hv Hn Hl. specialize (Hget k). rewrite Hv, Hn in Hget.
    destruct Hget as [x [Hx Hk]]. rewrite (transport_other v Hl) in Hx.
    inversion Hx; subst. exact Hk.
Qed.

Lemma transport_fixed v x :
  is_None v = false -> transport v = inr x ->
  is_None x = false /\ isinstance_list x = false /\ transport x = inr x.
Proof.
  intros Hn Hx. destruct (isinstance_list v) eqn:Hl.
  - destruct v; try discriminate. apply transport_list in Hx.
    destruct Hx as [s [_ ->]]. repeat split.
  - rewrite (transport_other v Hl) in Hx. inversion Hx; subst.
    repeat split; auto using transport_other.
Qed.

Lemma kept_fixed d : forall out,
  kept d = inr out -> plain_values out = true /\ kept out = inr out.
Proof.
  induction d as [|[k v] d IH]; simpl; intros out H.
  - inversion H; subst. split; reflexivity.
  - destruct (is_None v) eqn:Hn; [auto|].
    destruct (transport v) as [e|x] eqn:Hx; simpl in H; [discriminate|].
    destruct (kept d) as [e|r] eqn:Hr; simpl in H; [discriminate|].
    inversion H; subst.
    destruct (transport_fixed v x Hn Hx) as [Hxn [Hxl Hxx]].
    destruct (IH r eq_refl) as [Hp Hk].
    simpl. rewrite Hxn, Hxl, Hxx, Hk, Hp. split; reflexivity.
Qed.

Lemma values_serializable_lists d :
  values_serializable d = true -> list_values_serializable d = true.
Proof.
  unfold values_serializable, list_values_serializable.
  rewrite !forallb_forall. intros H kv Hin. rewrite (H kv Hin).
  apply orb_true_r.
Qed.

(** ** C1: what the serialization helpers return *)

(** C1 (as amended).  For every parameter mapping whose list values can be
    JSON-encoded, [serialize_params] of the crypto adapter and [serialize]
    of the brokerage adapter return the same mapping; its keys are exactly
    the input keys whose value is not [None]; under the key of a list value
    it holds the JSON encoding of that list; under every other kept key it
    holds the input value unchanged. *)
Theorem serialization_helpers_spec (d : dict) :
  unique_keys d = true ->
  list_values_serializable d = true ->
  exists out,
    Binance.serialize_params d = inr out /\
    Dhan.serialize d = inr out /\
    unique_keys out = true /\
    (forall k, In k (keys out) <->
               exists v, dict_get d k = Some v /\ is_None v = false) /\
    (forall k l, dict_get d k = Some (VList l) ->
                 exists s, json_dumps (VList l) = inr s /\
                           dict_get out k = Some (VStr s)) /\
    (forall k v, dict_get d k = Some v -> is_None v = false ->
                 isinstance_list v = false -> dict_get out k = Some v).
Proof.
  intros Hu Hs. destruct (kept_total d Hs) as [out Hout].
  exists out. rewrite serialize_params_kept, serialize_kept by exact Hu.
  split; [exact Hout|]. split; [exact Hout|].
  exact (kept_serialized d out Hu Hout).
Qed.

Lemma serialization_helpers_spec_witness :
  exists out,
    Binance.serialize_params sample_params = inr out /\
    Dhan.serialize sample_params = inr out /\
    unique_keys out = true /\
    (forall k, In k (keys out) <->
               exists v, dict_get sample_params k = Some v /\ is_None v = false) /\
    (forall k l, dict_get sample_params k = Some (VList l) ->
                 exists s, json_dumps (VList l) = inr s /\
                           dict_get out k = Some (VStr s)) /\
    (forall k v, dict_get sample_params k = Some v -> is_None v = false ->
                 isinstance_list v = false -> dict_get out k = Some v).
Proof.
  apply (serialization_helpers_spec sample_params); reflexivity.
Defined.

(** C1 as stated fails: on a mapping with a list that holds a [bytes]
    object both helpers raise [TypeError] and return no mapping. *)
Lemma serialization_helpers_raise :
  unique_keys unencodable_params = true /\
  Binance.serialize_params unencodable_params
  = inl (TypeError "Object of type bytes is not JSON serializable") /\
  Dhan.serialize unencodable_params
  = inl (TypeError "Object of type bytes is not JSON serializable").
Proof. repeat split. Qed.

(** ** C8: the helpers are idempotent *)

(** C8.  For every parameter mapping whose values are JSON-serializable,
    each helper returns a mapping that holds no [None] and no list, and
    applied to that mapping returns it unchanged. *)
Theorem serialization_idempotent (d : dict) :
  unique_keys d = true ->
  values_serializable d = true ->
  exists out,
    Binance.serialize_params d = inr out /\
    Binance.serialize_params out = inr out /\
    Dhan.serialize d = inr out /\
    Dhan.serialize out = inr out /\
    plain_values out = true.
Proof.
  intros Hu Hs. apply values_serializable_lists in Hs.
  destruct (kept_total d Hs) as [out Hout]. exists out.
  assert (Huo : unique_keys out = true).
  { apply unique_keys_NoDup. apply unique_keys_NoDup in Hu.
    eapply kept_unique; eauto. }
  destruct (kept_fixed d out Hout) as [Hp Hk].
  rewrite !serialize_params_kept, !serialize_kept by assumption.
  repeat split; assumption.
Qed.

Lemma serialization_idempotent_witness :
  exists out,
    Binance.serialize_params sample_params = inr out /\
    Binance.serialize_params out = inr out /\
    Dhan.serialize sample_params = inr out /\
    Dhan.serialize out = inr out /\
    plain_values out = true.
Proof.
  apply (serialization_idempotent sample_params); reflexivity.
Defined.

(** ** Running a tool *)

Lemma json_dumps_str_list l :
  json_dumps (VList (map VStr l))
  = inr ("[" ++ join ", " (map encode_str l) ++ "]").
Proof.
  simpl.
  match goal with
  | |- rbind (?f _) _ = _ =>
      assert (H : forall l', f (map VStr l') = inr (map encode_str l'))
  end.
  { induction l' as [|s l' IH]; simpl; [reflexivity|]. rewrite IH. reflexivity. }
  rewrite H. reflexivity.
Qed.

Lemma transport_str_list l :
  transport (str_list l)
  = inr (VStr ("[" ++ join ", " (map encode_str l) ++ "]")).
Proof.
  unfold transport, str_list. simpl isinstance_list. cbv iota.
  rewrite json_dumps_str_list. reflexivity.
Qed.

Lemma transport_str s : transport (VStr s) = inr (VStr s).
Proof. reflexivity. Qed.

Lemma transport_int z : transport (VInt z) = inr (VInt z).
Proof. reflexivity. Qed.

Lemma skipn_length_app {A : Type} (l r : list A) :
  skipn (List.length l) (l ++ r) = r.
Proof. induction l as [|x l IH]; simpl; [reflexivity | exact IH]. Qed.

Lemma issued_one {G A : Type} (c : M G A) net (p : process G) r :
  wire (snd (c net p)) = (wire p ++ [r])%list -> issued c net p = [r].
Proof. intro H. unfold issued. rewrite H. apply skipn_length_app. Qed.

#[local] Arguments transport : simpl never.

(** Evaluate a tool up to the answer of the remote side. *)
Ltac run_tool :=
  repeat (cbn; rewrite ?transport_str_list, ?transport_str, ?transport_int).

(** Name the request builder of a tool whose run is at its one request. *)
Ltac name_builder net w g :=
  match goal with
  | |- context [net w ?R] =>
      tryif has_evar R then fail
      else match eval pattern g in R with
           | ?F _ =>
               match goal with
               | |- _ = (_ (net w (?B g)), _) => unify B F
               end
           end
  end.

(** Case analysis on the answer, down to the end of the tool. *)
Ltac answer_cases net :=
  match goal with
  | |- context [net ?w ?R] =>
      destruct (net w R) as [?e|?resp]; cbn;
      [ | unfold raise_for_status;
          match goal with
          | |- context [is_success ?a] => destruct (is_success a); cbn
          end;
          try match goal with
              | |- context [resp_json ?a] => destruct (resp_json a); cbn
              end ]
  end.

(** The one request of a tool: solves [wire (snd (tool net p)) = wire p ++ [?r]]
    and names the request. *)
Ltac tool_issues net :=
  apply issued_one; run_tool; answer_cases net; reflexivity.

Lemma binance_shape (i : Binance.invocation) :
  exists build : Binance.globals -> request,
    forall net g env w,
      Binance.invoke i net (mkProcess g env w)
      = (Binance.answered (net w (build g)),
         mkProcess g env (w ++ [build g])).
Proof.
  destruct i;
    repeat match goal with o : option _ |- _ => destruct o end;
    eexists; intros net g env w; run_tool; name_builder net w g; cbn;
    answer_cases net; reflexivity.
Qed.

Lemma issued_none {G A : Type} (c : M G A) net (p : process G) :
  wire (snd (c net p)) = wire p -> issued c net p = [].
Proof.
  intro H. unfold issued. rewrite H.
  rewrite <- (app_nil_r (wire p)) at 2. apply skipn_length_app.
Qed.

(** Discharge [query_carries] on a concrete list of arguments. *)
Ltac carried :=
  let k := fresh "k" in
  let v := fresh "v" in
  let Hin := fresh "Hin" in
  let Hn := fresh "Hn" in
  unfold query_carries; intros k v Hin Hn; cbn in Hin;
  repeat (destruct Hin as [Hin|Hin];
          [ inversion Hin; subst;
            first
              [ cbn in Hn; discriminate Hn
              | do 2 eexists; split; [reflexivity|];
                split; [first [apply transport_str_list | reflexivity]
                       | reflexivity] ]
          | ]);
  destruct Hin.

(** The arguments of a data-fetching brokerage tool, in its query. *)
Ltac dhan_request_facts :=
  cbn [Dhan.passes_POST];
  (split; [reflexivity|]); (split; [reflexivity|]);
  first [carried | eexists; reflexivity].

(** Every brokerage tool, run: it stops at [mcp.ctx] when that attribute
    is not set, and otherwise hands over one request. *)
Lemma dhan_shape (i : Dhan.invocation) :
  exists build : Dhan.globals -> request,
    (forall net g env w,
       Dhan.invoke i net (mkProcess g env w)
       = match ctx_set g with
         | None => (inl no_ctx, mkProcess g env w)
         | Some _ =>
             (Dhan.answered (net w (build g)), mkProcess g env (w ++ [build g]))
         end) /\
    (forall g,
       headers (build g) = Some (Dhan.HEADERS g) /\
       if Dhan.passes_POST i
       then method (build g) = "POST" /\ params (build g) = Some [] /\
            exists body, json (build g) = Some (VDict body)
       else method (build g) = "GET" /\ json (build g) = None /\
            query_carries (Dhan.arguments i) (build g)).
Proof.
  destruct i;
    repeat match goal with o : option _ |- _ => destruct o end;
    eexists;
    (split;
     [ intros net g env w; unfold ctx_set; cbn; unfold FastMCP_ctx;
       destruct (dict_get (attributes (Dhan.mcp g)) "ctx") as [c|];
       [ run_tool; name_builder net w g; cbn; answer_cases net; reflexivity
       | reflexivity ]
     | intro g; split; [reflexivity | dhan_request_facts] ]).
Qed.

Lemma ctx_unset_after_import start_env : ctx_set (Dhan.import_module start_env) = None.
Proof. reflexivity. Qed.

(** [call_api], run. *)
Lemma call_api_run ctx verb path qparams json_body net (p : process Dhan.globals) :
  Dhan.call_api ctx verb path qparams json_body net p
  = match Dhan.serialize (Dhan.or_empty qparams) with
    | inl e => (inl e, p)
    | inr query =>
        (Dhan.answered
           (net (wire p)
              (api_request (module_globals p) verb path query json_body)),
         mkProcess (module_globals p) (environ p)
           (wire p ++ [api_request (module_globals p) verb path query json_body]))
    end.
Proof.
  unfold Dhan.call_api, bind, read, lift, client_request, api_request. cbn.
  destruct (Dhan.serialize (Dhan.or_empty qparams)) as [e|query]; [reflexivity|].
  answer_cases net; reflexivity.
Qed.

Lemma call_api_issued ctx verb path qparams json_body net (p : process Dhan.globals) :
  issued (Dhan.call_api ctx verb path qparams json_body) net p
  = match Dhan.serialize (Dhan.or_empty qparams) with
    | inl _ => []
    | inr query => [api_request (module_globals p) verb path query json_body]
    end.
Proof.
  pose proof (call_api_run ctx verb path qparams json_body net p) as H.
  destruct (Dhan.serialize (Dhan.or_empty qparams)) as [e|query].
  - apply issued_none. rewrite H. reflexivity.
  - apply issued_one. rewrite H. reflexivity.
Qed.

(** The requests of one brokerage tool, with [mcp.ctx] set or not. *)
Ltac dhan_tool_issues net :=
  match goal with
  | |- issued _ net ?p = _ =>
      let g := fresh "g" in
      let env := fresh "env" in
      let w := fresh "w" in
      let c := fresh "c" in
      let Hc := fresh "Hc" in
      destruct p as [g env w]; unfold ctx_set; cbn [module_globals];
      destruct (dict_get (attributes (Dhan.mcp g)) "ctx") as [c|] eqn:Hc;
      [ apply issued_one; cbn; unfold FastMCP_ctx; rewrite Hc; run_tool; answer_cases net;
        reflexivity
      | apply issued_none; cbn; unfold FastMCP_ctx; rewrite Hc; reflexivity ]
  end.

(** ** C5: one request per invocation *)

(** C5.  The brokerage tools, as the module leaves them after its import,
    do not get as far as their request.  Every one of them evaluates
    [mcp.ctx] before it enters [call_api]; nothing has set that attribute,
    the lookup raises [AttributeError], and the invocation ends there, with
    the process as it was and nothing handed to the HTTP client, whatever
    the arguments, the environment and the answers of the remote side. *)
Theorem brokerage_tools_raise_before_request :
  forall (i : Dhan.invocation) (net : oracle)
         (start_env env : list (string * string)) (sent : list request),
    Dhan.invoke i net (dhan_process start_env env sent)
    = (inl no_ctx, dhan_process start_env env sent) /\
    issued (Dhan.invoke i) net (dhan_process start_env env sent) = [].
Proof.
  intros i net start_env env sent.
  destruct (dhan_shape i) as [build [H _]].
  assert (Hrun : Dhan.invoke i net (dhan_process start_env env sent)
                 = (inl no_ctx, dhan_process start_env env sent)).
  { unfold dhan_process. rewrite H, ctx_unset_after_import. reflexivity. }
  split; [exact Hrun|]. apply issued_none. rewrite Hrun. reflexivity.
Qed.

(** ** C2: when a tool raises *)

(** C2 (as amended).  A crypto tool hands one request to the HTTP client
    and no other; an exception the client raises without a response reaches
    the caller unchanged; a response with a status outside 200..299 raises
    [HTTPStatusError]; on a 2xx response the tool returns the response
    text.  A brokerage tool that gets past [mcp.ctx] does the same through
    [call_api], except that on a 2xx response it returns the parsed body
    when the body is JSON and raises the decoding error of [resp.json()]
    when it is not; [call_api] itself, once its query is serialized, hands
    one request to the client and treats the answer in that way. *)
Theorem tool_outcomes :
  (forall (i : Binance.invocation) (net : oracle) (p : process Binance.globals),
     exists r,
       issued (Binance.invoke i) net p = [r] /\
       fst (Binance.invoke i net p)
       = match net (wire p) r with
         | inl e => inl e
         | inr resp =>
             if is_success resp then inr (text resp)
             else inl (HTTPStatusError (status_code resp))
         end) /\
  (forall (i : Dhan.invocation) (net : oracle) (p : process Dhan.globals)
          (c : pyval),
     ctx_set (module_globals p) = Some c ->
     exists r,
       issued (Dhan.invoke i) net p = [r] /\
       fst (Dhan.invoke i net p)
       = match net (wire p) r with
         | inl e => inl e
         | inr resp =>
             if is_success resp then resp_json resp
             else inl (HTTPStatusError (status_code resp))
         end) /\
  (forall (ctx : pyval) (verb path : string) (qparams : option dict)
          (json_body : option pyval) (net : oracle) (p : process Dhan.globals),
     issued (Dhan.call_api ctx verb path qparams json_body) net p
     = match Dhan.serialize (Dhan.or_empty qparams) with
       | inl _ => []
       | inr query =>
           [api_request (module_globals p) verb path query json_body]
       end /\
     fst (Dhan.call_api ctx verb path qparams json_body net p)
     = match Dhan.serialize (Dhan.or_empty qparams) with
       | inl e => inl e
       | inr query =>
           match net (wire p)
                   (api_request (module_globals p) verb path query json_body)
           with
           | inl e => inl e
           | inr resp =>
               if is_success resp then resp_json resp
               else inl (HTTPStatusError (status_code resp))
           end
       end).
Proof.
  split; [|split].
  - intros i net [g env w].
    destruct (binance_shape i) as [build H]. exists (build g). split.
    + apply issued_one. rewrite H. reflexivity.
    + rewrite H. reflexivity.
  - intros i net [g env w] c Hc. cbn [module_globals] in Hc.
    destruct (dhan_shape i) as [build [H _]]. exists (build g). split.
    + apply issued_one. rewrite H, Hc. reflexivity.
    + rewrite H, Hc. reflexivity.
  - intros ctx verb path qparams json_body net p.
    split; [apply call_api_issued|].
    rewrite call_api_run.
    destruct (Dhan.serialize (Dhan.or_empty qparams)) as [e|query]; reflexivity.
Qed.

Lemma tool_outcomes_witness :
  exists r,
    issued (Dhan.invoke Dhan.Call_get_order_book) plain_text_server
      patched_process = [r] /\
    fst (Dhan.invoke Dhan.Call_get_order_book plain_text_server patched_process)
    = match plain_text_server (wire patched_process) r with
      | inl e => inl e
      | inr resp =>
          if is_success resp then resp_json resp
          else inl (HTTPStatusError (status_code resp))
      end.
Proof.
  apply (proj1 (proj2 tool_outcomes) Dhan.Call_get_order_book plain_text_server
           patched_process VNone).
  reflexivity.
Defined.

(** C2 as stated fails in the brokerage adapter.  The remote side answers
    every request with status 200 and a body that is not JSON.  The tool
    [get_order_book], in the module as imported, raises at [mcp.ctx] with no
    response at all; [call_api] for the order book hands over its request
    and raises the decoding error; so does the tool once [mcp.ctx] has been
    set. *)
Lemma brokerage_raises_on_2xx :
  is_success (mkResponse 200 "OK" (inl JSONDecodeError)) = true /\
  Dhan.invoke Dhan.Call_get_order_book plain_text_server
    (dhan_process sample_env sample_env [])
  = (inl no_ctx, dhan_process sample_env sample_env []) /\
  Dhan.call_api VNone "GET" "/orders" None None plain_text_server
    (dhan_process sample_env sample_env [])
  = (inl JSONDecodeError,
     mkProcess (Dhan.import_module sample_env) sample_env
       [mkRequest "GET" "https://api.dhan.co/v2/orders" (Some sample_headers)
          (Some []) None]) /\
  fst (Dhan.invoke Dhan.Call_get_order_book plain_text_server patched_process)
  = inl JSONDecodeError.
Proof. repeat split. Qed.

(** ** C7: module state *)

(** C7.  No invocation of either adapter changes the module-level names
    ([BASE_URL], [HEADERS], [CLIENT_ID], [ACCESS_TOKEN], the server object
    and the tools registered on it) or the environment; and an invocation
    that runs after another one builds the request it would have built
    without it and makes of the answer what it would have made without it,
    whatever the earlier invocation was and whatever it received. *)
Theorem invocations_keep_module_state :
  (forall (i : Binance.invocation) (net : oracle) (p : process Binance.globals),
     module_globals (snd (Binance.invoke i net p)) = module_globals p /\
     environ (snd (Binance.invoke i net p)) = environ p) /\
  (forall (i : Dhan.invocation) (net : oracle) (p : process Dhan.globals),
     module_globals (snd (Dhan.invoke i net p)) = module_globals p /\
     environ (snd (Dhan.invoke i net p)) = environ p) /\
  (forall (i1 i2 : Binance.invocation) (net1 net2 : oracle)
          (p : process Binance.globals),
     issued (Binance.invoke i2) net2 (snd (Binance.invoke i1 net1 p))
     = issued (Binance.invoke i2) net2 p /\
     fst (Binance.invoke i2 net2 (snd (Binance.invoke i1 net1 p)))
     = fst (Binance.invoke i2
              (fun _ => net2 (wire (snd (Binance.invoke i1 net1 p)))) p)) /\
  (forall (i1 i2 : Dhan.invocation) (net1 net2 : oracle)
          (p : process Dhan.globals),
     issued (Dhan.invoke i2) net2 (snd (Dhan.invoke i1 net1 p))
     = issued (Dhan.invoke i2) net2 p /\
     fst (Dhan.invoke i2 net2 (snd (Dhan.invoke i1 net1 p)))
     = fst (Dhan.invoke i2
              (fun _ => net2 (wire (snd (Dhan.invoke i1 net1 p)))) p)).
Proof.
  repeat split.
  - destruct p as [g env w], (binance_shape i) as [b H]. rewrite H. reflexivity.
  - destruct p as [g env w], (binance_shape i) as [b H]. rewrite H. reflexivity.
  - destruct p as [g env w], (dhan_shape i) as [b [H _]]. rewrite H.
    destruct (ctx_set g); reflexivity.
  - destruct p as [g env w], (dhan_shape i) as [b [H _]]. rewrite H.
    destruct (ctx_set g); reflexivity.
  - destruct p as [g env w], (binance_shape i1) as [b1 H1],
      (binance_shape i2) as [b2 H2].
    rewrite H1. cbn [snd].
    rewrite (issued_one _ _ _ (b2 g)) by (rewrite H2; reflexivity).
    rewrite (issued_one _ _ _ (b2 g)) by (rewrite H2; reflexivity).
    reflexivity.
  - destruct p as [g env w], (binance_shape i1) as [b1 H1],
      (binance_shape i2) as [b2 H2].
    rewrite H1. cbn [snd]. rewrite !H2. reflexivity.
  - destruct p as [g env w], (dhan_shape i1) as [b1 [H1 _]],
      (dhan_shape i2) as [b2 [H2 _]].
    rewrite H1. destruct (ctx_set g) as [c|] eqn:Hc; cbn [snd].
    + rewrite (issued_one _ _ _ (b2 g)) by (rewrite H2, Hc; reflexivity).
      rewrite (issued_one _ _ _ (b2 g)) by (rewrite H2, Hc; reflexivity).
      reflexivity.
    + reflexivity.
  - destruct p as [g env w], (dhan_shape i1) as [b1 [H1 _]],
      (dhan_shape i2) as [b2 [H2 _]].
    rewrite H1. destruct (ctx_set g) as [c|] eqn:Hc; cbn [snd].
    + rewrite !H2, Hc. reflexivity.
    + rewrite !H2, Hc. reflexivity.
Qed.

(** ** C3: methods, queries and bodies *)

Lemma binance_requests (i : Binance.invocation) net p :
  exists r,
    issued (Binance.invoke i) net p = [r] /\
    method r = "GET" /\ json r = None /\
    query_carries (Binance.arguments i) r.
Proof.
  destruct i;
    repeat match goal with o : option _ |- _ => destruct o end;
    eexists; (split; [tool_issues net|]);
    (split; [reflexivity|]); (split; [reflexivity|]); carried.
Qed.

(** C3 (as amended).  Every crypto tool issues a GET request that carries
    its arguments as query parameters and has no body.  Of the brokerage
    tools that get past [mcp.ctx], the four order-placement tools and also
    [get_historical_intraday], [get_historical_daily] and
    [calculate_margin] issue a POST request with a JSON body and an empty
    query; every other tool issues a GET request that carries its arguments
    as query parameters and has no body.  The request [call_api] hands to
    the client has the method, the body and, serialized, the query
    parameters it was passed. *)
Theorem request_methods :
  (forall (i : Binance.invocation) (net : oracle) (p : process Binance.globals),
     exists r,
       issued (Binance.invoke i) net p = [r] /\
       method r = "GET" /\ json r = None /\
       query_carries (Binance.arguments i) r) /\
  (forall (i : Dhan.invocation) (net : oracle) (p : process Dhan.globals)
          (c : pyval),
     ctx_set (module_globals p) = Some c ->
     exists r,
       issued (Dhan.invoke i) net p = [r] /\
       if Dhan.passes_POST i
       then method r = "POST" /\ params r = Some [] /\
            exists body, json r = Some (VDict body)
       else method r = "GET" /\ json r = None /\
            query_carries (Dhan.arguments i) r) /\
  (forall (ctx : pyval) (verb path : string) (qparams : option dict)
          (json_body : option pyval) (net : oracle) (p : process Dhan.globals),
     issued (Dhan.call_api ctx verb path qparams json_body) net p
     = match Dhan.serialize (Dhan.or_empty qparams) with
       | inl _ => []
       | inr query =>
           [mkRequest verb (Dhan.BASE_URL (module_globals p) ++ path)
              (Some (Dhan.HEADERS (module_globals p))) (Some query) json_body]
       end) /\
  (forall i : Dhan.invocation,
     Dhan.passes_POST i
     = Dhan.places_order i
       || match i with
          | Dhan.Call_get_historical_intraday _ _ _ _
          | Dhan.Call_get_historical_daily _ _ _
          | Dhan.Call_calculate_margin _ _ _ _ _ => true
          | _ => false
          end).
Proof.
  split; [exact binance_requests|]. split; [|split].
  - intros i net [g env w] c Hc. cbn [module_globals] in Hc.
    destruct (dhan_shape i) as [build [H Hb]]. exists (build g). split.
    + apply issued_one. rewrite H, Hc. reflexivity.
    + apply Hb.
  - exact call_api_issued.
  - destruct i; reflexivity.
Qed.

Lemma request_methods_witness :
  exists r,
    issued (Dhan.invoke (Dhan.Call_get_option_chain "NIFTY")) unreachable_server
      patched_process = [r] /\
    method r = "GET" /\ json r = None /\
    query_carries [("underlying", VStr "NIFTY")] r.
Proof.
  apply (proj1 (proj2 request_methods) (Dhan.Call_get_option_chain "NIFTY")
           unreachable_server patched_process VNone).
  reflexivity.
Defined.

(** C3 as stated fails: [get_historical_intraday] fetches data and places no
    order, and it issues no GET request.  In the module as imported it
    stops at [mcp.ctx] and issues nothing; what it passes to [call_api], and
    what goes to the client once [mcp.ctx] has been set, is a POST with a
    JSON body and an empty query. *)
Lemma historical_intraday_posts :
  Dhan.fetches_data sample_intraday_call = true /\
  Dhan.places_order sample_intraday_call = false /\
  issued (Dhan.invoke sample_intraday_call) plain_text_server
    (dhan_process sample_env sample_env [])
  = [] /\
  issued (Dhan.call_api VNone "POST" "/charts/intraday" None
            (Some (VDict sample_intraday_body))) plain_text_server
    (dhan_process sample_env sample_env [])
  = [mkRequest "POST" "https://api.dhan.co/v2/charts/intraday"
       (Some sample_headers) (Some []) (Some (VDict sample_intraday_body))] /\
  issued (Dhan.invoke sample_intraday_call) plain_text_server patched_process
  = [mkRequest "POST" "https://api.dhan.co/v2/charts/intraday"
       (Some sample_headers) (Some []) (Some (VDict sample_intraday_body))].
Proof. repeat split. Qed.

(** ** C4: the headers of the brokerage adapter *)

Lemma headers_after_import start_env attrs :
  Dhan.HEADERS (with_attributes attrs (Dhan.import_module start_env))
  = [ ("Content-Type", VStr "application/json");
      ("client-id", os_getenv start_env "DHAN_CLIENT_ID");
      ("access-token", os_getenv start_env "DHAN_ACCESS_TOKEN") ].
Proof. reflexivity. Qed.

Lemma dhan_step_frame (s : dhan_step) net g env w :
  exists added,
    dhan_step_run s net (mkProcess g env w) = mkProcess g env (w ++ added) /\
    (List.length added <= 1)%nat /\
    Forall (fun r => headers r = Some (Dhan.HEADERS g)) added.
Proof.
  destruct s as [i | ctx verb path qparams json_body]; simpl.
  - destruct (dhan_shape i) as [build [H Hb]]. rewrite H.
    destruct (ctx_set g).
    + exists [build g]. split; [reflexivity|].
      split; [apply Nat.le_refl|]. constructor; [apply Hb | constructor].
    + exists []. rewrite app_nil_r.
      repeat split; [apply Nat.le_0_1 | constructor].
  - rewrite call_api_run.
    destruct (Dhan.serialize (Dhan.or_empty qparams)) as [e|query]; simpl.
    + exists []. rewrite app_nil_r.
      repeat split; [apply Nat.le_0_1 | constructor].
    + eexists. split; [reflexivity|].
      split; [apply Nat.le_refl | repeat constructor].
Qed.

Lemma dhan_run_headers steps net : forall g env w (hdrs : dict),
  Dhan.HEADERS g = hdrs ->
  Forall (fun r => headers r = Some hdrs) w ->
  Forall (fun r => headers r = Some hdrs)
    (wire (dhan_run steps net (mkProcess g env w))).
Proof.
  induction steps as [|[env' s] steps IH]; intros g env w hdrs Hg Hw; simpl.
  - exact Hw.
  - destruct (dhan_step_frame s net g env' w) as [added [Hr [_ Hh]]].
    rewrite Hr. apply IH; [exact Hg|].
    apply Forall_app. split; [exact Hw|]. rewrite <- Hg. exact Hh.
Qed.

(** C4.  The process reads [DHAN_CLIENT_ID] and [DHAN_ACCESS_TOKEN] when the
    module is imported.  Every request the brokerage module hands to the
    HTTP client afterwards, in any sequence of tool invocations and calls of
    [call_api], whatever the environment has become in between and whatever
    has been set on the server object, carries the same three headers:
    [Content-Type] with ["application/json"], [client-id] and
    [access-token] with the two values read at the start. *)
Theorem brokerage_headers_fixed :
  forall (start_env : list (string * string)) (attrs : dict)
         (steps : list (list (string * string) * dhan_step))
         (net : oracle),
    Forall (fun r =>
              headers r
              = Some [ ("Content-Type", VStr "application/json");
                       ("client-id", os_getenv start_env "DHAN_CLIENT_ID");
                       ("access-token", os_getenv start_env "DHAN_ACCESS_TOKEN") ])
      (wire (dhan_run steps net
               (mkProcess (with_attributes attrs (Dhan.import_module start_env))
                  start_env []))).
Proof.
  intros start_env attrs steps net.
  apply dhan_run_headers; [apply headers_after_import | constructor].
Qed.

(** ** C6: the request of [getTradeData] *)

(** C6.  For every symbol, interval and optional start time, end time and
    limit, [getTradeData] issues one GET request to the base URL followed by
    ["klines"], without headers or body; its query holds exactly the entries
    among the five arguments that are not [None], in the order of the
    source: [symbol] and [interval] always, each optional argument only
    when it is given. *)
Theorem getTradeData_request :
  forall (symbol interval : string) (startTime endTime limit : option Z)
         (net : oracle) (env : list (string * string)) (sent : list request),
  exists q,
    issued (Binance.getTradeData symbol interval startTime endTime limit) net
      (binance_process env sent)
    = [mkRequest "GET" "https://api.binance.com/api/v3/klines" None (Some q) None] /\
    q = filter (fun kv => negb (is_None (snd kv)))
          [ ("symbol", VStr symbol);
            ("interval", VStr interval);
            ("startTime", optional VInt startTime);
            ("endTime", optional VInt endTime);
            ("limit", optional VInt limit) ] /\
    dict_get q "symbol" = Some (VStr symbol) /\
    dict_get q "interval" = Some (VStr interval) /\
    dict_get q "startTime" = option_map VInt startTime /\
    dict_get q "endTime" = option_map VInt endTime /\
    dict_get q "limit" = option_map VInt limit /\
    (forall k, In k (keys q) ->
               In k ["symbol"; "interval"; "startTime"; "endTime"; "limit"]).
Proof.
  intros symbol interval startTime endTime limit net env sent.
  destruct startTime, endTime, limit;
    (eexists; split; [tool_issues net|]);
    (split; [reflexivity|]);
    repeat (split; [reflexivity|]);
    cbn; intros k Hk; tauto.
Qed.

(** ** C9: [call_api] and its context argument *)

(** C9.  [call_api] does not depend on its [ctx] argument: with the same
    method, path, parameters and body, two calls that differ in the context
    only run alike against every remote side and from every process state,
    so they issue the same request and return or raise the same.  Every
    brokerage tool is one read of [mcp.ctx] followed by one such call. *)
Theorem call_api_ignores_ctx :
  (forall (ctx1 ctx2 : pyval) (method path : string) (params : option dict)
          (json_body : option pyval) (net : oracle) (p : process Dhan.globals),
     Dhan.call_api ctx1 method path params json_body net p
     = Dhan.call_api ctx2 method path params json_body net p /\
     issued (Dhan.call_api ctx1 method path params json_body) net p
     = issued (Dhan.call_api ctx2 method path params json_body) net p /\
     fst (Dhan.call_api ctx1 method path params json_body net p)
     = fst (Dhan.call_api ctx2 method path params json_body net p)) /\
  (forall i : Dhan.invocation,
     exists (method path : string) (params : option dict)
            (json_body : option pyval),
       Dhan.invoke i
       = (c <- Dhan.mcp_ctx ;; Dhan.call_api c method path params json_body)).
Proof.
  split.
  - intros. repeat split.
  - destruct i; do 4 eexists; reflexivity.
Qed.

(** ** C10: the request of [place_after_market_order] *)

(** C10.  In the module as imported, [place_after_market_order] raises
    [AttributeError] at [mcp.ctx] for every combination of its arguments
    and hands nothing to the HTTP client.  What it is written to hand over,
    and does hand over once [mcp.ctx] has been set, is one POST to the base URL
    followed by ["/orders"] whose JSON body holds ["afterMarket"] with
    [True], and ["productType"] with the given product type, or with
    ["DELIVERY"] when the argument is omitted. *)
Theorem place_after_market_order_raises :
  forall (symbol : string) (qty price : pyfloat) (side : string)
         (product_type : option string) (net : oracle),
    (forall (start_env env : list (string * string)) (sent : list request),
       Dhan.place_after_market_order symbol qty price side product_type net
         (dhan_process start_env env sent)
       = (inl no_ctx, dhan_process start_env env sent)) /\
    exists body,
      (forall p : process Dhan.globals,
         issued (Dhan.place_after_market_order symbol qty price side
                   product_type) net p
         = match ctx_set (module_globals p) with
           | None => []
           | Some _ =>
               [mkRequest "POST" (Dhan.BASE_URL (module_globals p) ++ "/orders")
                  (Some (Dhan.HEADERS (module_globals p))) (Some [])
                  (Some (VDict body))]
           end) /\
      dict_get body "afterMarket" = Some (VBool true) /\
      dict_get body "productType"
      = Some (VStr (match product_type with
                    | Some given => given
                    | None => "DELIVERY"
                    end)) /\
      keys body
      = ["symbol"; "quantity"; "price"; "side"; "productType"; "afterMarket"].
Proof.
  intros symbol qty price side product_type net.
  split; [intros; reflexivity|].
  destruct product_type; eexists;
    (split; [intro p; dhan_tool_issues net | repeat split]).
Qed.

(** ** Sample runs *)

Example getTradeData_run :
  Binance.getTradeData "BTCUSDT" "1m" None None (Some 5)
    (constant_server 200 "[]" (inr (VList [])))
    (binance_process [] [])
  = (inr "[]",
     mkProcess Binance.import_module []
       [mkRequest "GET" "https://api.binance.com/api/v3/klines" None
          (Some [("symbol", VStr "BTCUSDT"); ("interval", VStr "1m");
                 ("limit", VInt 5)])
          None]).
Proof. reflexivity. Qed.

Example TradingDayTicker_run :
  issued (Binance.TradingDayTicker ["BTCUSDT"; "ETHUSDT"])
    (constant_server 200 "[]" (inr (VList [])))
    (binance_process [] [])
  = [mkRequest "GET" "https://api.binance.com/api/v3/ticker/tradingDay" None
       (Some [("symbols",
               VStr ("[" ++ encode_str "BTCUSDT" ++ ", "
                         ++ encode_str "ETHUSDT" ++ "]"))])
       None].
Proof. reflexivity. Qed.

Example Depth_not_found :
  fst (Binance.Depth "NOPE" (constant_server 404 "not found" (inl JSONDecodeError))
         (binance_process [] []))
  = inl (HTTPStatusError 404).
Proof. reflexivity. Qed.

Example get_holdings_run :
  Dhan.get_holdings (constant_server 200 "{}" (inr (VDict [])))
    (dhan_process sample_env sample_env [])
  = (inl no_ctx, dhan_process sample_env sample_env []).
Proof. reflexivity. Qed.

Example get_holdings_patched_run :
  Dhan.get_holdings (constant_server 200 "{}" (inr (VDict []))) patched_process
  = (inr (VDict []),
     mkProcess (module_globals patched_process) sample_env
       [mkRequest "GET" "https://api.dhan.co/v2/holdings" (Some sample_headers)
          (Some []) None]).
Proof. reflexivity. Qed.

Example call_api_unreachable :
  fst (Dhan.call_api VNone "GET" "/positions" None None unreachable_server
         (dhan_process sample_env sample_env []))
  = inl (TransportError "connection refused").
Proof. reflexivity. Qed.

Example headers_survive_environment_change :
  wire (dhan_run
          [ ([], Step_tool Dhan.Call_get_fund_balance);
            ([("DHAN_CLIENT_ID", "other")],
             Step_call_api VNone "GET" "/user/funds" None None) ]
          unreachable_server (dhan_process sample_env sample_env []))
  = [mkRequest "GET" "https://api.dhan.co/v2/user/funds" (Some sample_headers)
       (Some []) None].
Proof. reflexivity. Qed.

Example registered_tools :
  List.length (tools (Binance.mcp Binance.import_module)) = 12%nat /\
  List.length (tools (Dhan.mcp (Dhan.import_module []))) = 17%nat /\
  attributes (Dhan.mcp (Dhan.import_module [])) = [].
Proof. repeat split. Qed.

(** * Further properties *)

(** ** The serialization helpers on every input *)

Lemma comprehension_returns items : forall acc,
  returns (dict_comprehension (fun _ v => negb (is_None v))
             (fun _ v => transport v) items acc)
  = list_values_serializable items.
Proof.
  induction items as [|[k v] rest IH]; intro acc; simpl; [reflexivity|].
  destruct v; simpl; rewrite ?IH; try reflexivity.
  unfold transport, json_serializable. simpl isinstance_list. cbv iota.
  destruct (json_dumps (VList items)) as [e|s]; simpl; [reflexivity | apply IH].
Qed.

Lemma comprehension_first_error pre k v post e : forall acc,
  list_values_serializable pre = true ->
  isinstance_list v = true ->
  json_dumps v = inl e ->
  dict_comprehension (fun _ v => negb (is_None v)) (fun _ v => transport v)
    (pre ++ (k, v) :: post)%list acc
  = inl e.
Proof.
  induction pre as [|[k' v'] pre IH]; intros acc Hpre Hl He; simpl.
  - destruct v; try discriminate. simpl.
    unfold transport. simpl isinstance_list. cbv iota. rewrite He. reflexivity.
  - simpl in Hpre. apply andb_true_iff in Hpre. destruct Hpre as [Hv Hpre].
    destruct (is_None v'); simpl; [apply IH; assumption|].
    unfold transport. unfold json_serializable in Hv.
    destruct (isinstance_list v'); simpl in *.
    + destruct (json_dumps v'); [discriminate|]. simpl. apply IH; assumption.
    + apply IH; assumption.
Qed.

(** X1.  The two copies of the helper are one function: on every input,
    well-formed or not, returning or raising, [serialize_params] and
    [serialize] give the same outcome. *)
Theorem helpers_agree :
  forall d : dict, Binance.serialize_params d = Dhan.serialize d.
Proof.
  intro d. unfold Binance.serialize_params, Dhan.serialize.
  apply loop_is_comprehension.
Qed.

(** X2.  A helper returns a mapping exactly when every list among the
    values of its input can be JSON-encoded; nothing else makes it raise. *)
Theorem helpers_return_iff :
  forall d : dict,
    ((exists out, Binance.serialize_params d = inr out) <->
     list_values_serializable d = true) /\
    ((exists out, Dhan.serialize d = inr out) <->
     list_values_serializable d = true).
Proof.
  intro d. unfold Binance.serialize_params, Dhan.serialize.
  rewrite loop_is_comprehension, <- (comprehension_returns d []).
  destruct (dict_comprehension _ _ d []) as [e|out]; simpl.
  - split; split; try discriminate; intros [out H]; discriminate.
  - split; split; eauto.
Qed.

(** X3.  When a helper raises, it raises what [json.dumps] raises on the
    first list, in the order of the input, that cannot be encoded; entries
    after that list are not looked at. *)
Theorem helpers_first_error :
  forall (pre : dict) (k : string) (v : pyval) (post : dict) (e : exn),
    list_values_serializable pre = true ->
    isinstance_list v = true ->
    json_dumps v = inl e ->
    Binance.serialize_params (pre ++ (k, v) :: post)%list = inl e /\
    Dhan.serialize (pre ++ (k, v) :: post)%list = inl e.
Proof.
  intros pre k v post e Hpre Hl He.
  unfold Binance.serialize_params, Dhan.serialize.
  rewrite loop_is_comprehension.
  rewrite (comprehension_first_error pre k v post e [] Hpre Hl He).
  split; reflexivity.
Qed.

Lemma helpers_first_error_witness :
  Binance.serialize_params mixed_params
  = inl (TypeError "Object of type bytes is not JSON serializable") /\
  Dhan.serialize mixed_params
  = inl (TypeError "Object of type bytes is not JSON serializable").
Proof.
  apply (helpers_first_error
           [("symbol", VStr "BTCUSDT"); ("depth", VList [VInt 5; VInt 10])]
           "symbols" (VList [VStr "A"; VBytes "x"])
           [("window", VList [VBytes "y"])]);
    reflexivity.
Defined.

Lemma kept_keys d : forall out,
  kept d = inr out -> keys out = keys (filter not_None d).
Proof.
  unfold not_None.
  induction d as [|[k v] d IH]; simpl; intros out H.
  - inversion H. reflexivity.
  - destruct (is_None v); simpl; [apply IH; exact H|].
    destruct (transport v) as [e|x]; simpl in H; [discriminate|].
    destruct (kept d) as [e|r]; simpl in H; [discriminate|].
    inversion H; subst. simpl. f_equal. apply IH. reflexivity.
Qed.

(** X4.  The helpers keep the order of their input: the keys of the output
    are the keys of the input with the [None]-valued ones left out, in the
    same order.  Only [None] is left out: [0], the empty string, [False]
    and the empty list stay. *)
Theorem helpers_keep_order :
  forall d : dict,
    unique_keys d = true ->
    list_values_serializable d = true ->
    exists out,
      Binance.serialize_params d = inr out /\
      Dhan.serialize d = inr out /\
      keys out = keys (filter not_None d) /\
      List.length out = List.length (filter not_None d).
Proof.
  intros d Hu Hs. destruct (kept_total d Hs) as [out Hout]. exists out.
  rewrite serialize_params_kept, serialize_kept by exact Hu.
  pose proof (kept_keys d out Hout) as Hk.
  repeat split; try assumption.
  rewrite <- (length_map fst out), <- (length_map fst (filter not_None d)).
  unfold keys in Hk. rewrite Hk. reflexivity.
Qed.

Lemma helpers_keep_order_witness :
  exists out,
    Binance.serialize_params sample_params = inr out /\
    Dhan.serialize sample_params = inr out /\
    keys out = keys (filter not_None sample_params) /\
    List.length out = List.length (filter not_None sample_params).
Proof. apply (helpers_keep_order sample_params); reflexivity. Defined.

Lemma kept_plain d : plain_values d = true -> kept d = inr d.
Proof.
  induction d as [|[k v] d IH]; simpl; intro H; [reflexivity|].
  apply andb_true_iff in H. destruct H as [Hv Hd].
  apply andb_true_iff in Hv. destruct Hv as [Hn Hl].
  apply negb_true_iff in Hn. apply negb_true_iff in Hl.
  rewrite Hn, (transport_other v Hl), (IH Hd). reflexivity.
Qed.

(** X5.  A mapping that holds no [None] and no list comes back unchanged
    from both helpers, whatever else it holds: values that [json.dumps]
    would refuse and lists nested inside other values are not touched. *)
Theorem helpers_fix_plain_mappings :
  forall d : dict,
    unique_keys d = true ->
    plain_values d = true ->
    Binance.serialize_params d = inr d /\ Dhan.serialize d = inr d.
Proof.
  intros d Hu Hp.
  rewrite serialize_params_kept, serialize_kept by exact Hu.
  rewrite (kept_plain d Hp). split; reflexivity.
Qed.

Lemma helpers_fix_plain_mappings_witness :
  Binance.serialize_params falsy_params = inr falsy_params /\
  Dhan.serialize falsy_params = inr falsy_params.
Proof. apply (helpers_fix_plain_mappings falsy_params); reflexivity. Defined.

(** ** [call_api] and the HTTP client *)

(** X7.  [call_api] stops before the HTTP client exactly when its query
    parameters hold a list that cannot be JSON-encoded; in every other case
    it calls the client exactly once. *)
Theorem call_api_reaches_client_iff :
  forall (ctx : pyval) (method path : string) (params : option dict)
         (json_body : option pyval) (net : oracle) (p : process Dhan.globals),
    (issued (Dhan.call_api ctx method path params json_body) net p = [] <->
     list_values_serializable (Dhan.or_empty params) = false) /\
    (List.length (issued (Dhan.call_api ctx method path params json_body) net p)
     = 1%nat <->
     list_values_serializable (Dhan.or_empty params) = true).
Proof.
  intros ctx method path params json_body net p.
  pose proof (comprehension_returns (Dhan.or_empty params) []) as Hr.
  fold (Dhan.serialize (Dhan.or_empty params)) in Hr.
  rewrite call_api_issued.
  destruct (Dhan.serialize (Dhan.or_empty params)) as [e|query];
    simpl in Hr; rewrite <- Hr;
    split; split; intros; try reflexivity; discriminate.
Qed.

(** ** [place_order] and its extra keyword arguments *)

Lemma dict_get_set_same d k v : dict_get (dict_set d k v) k = Some v.
Proof.
  induction d as [|[k' v'] d IH]; simpl.
  - rewrite String.eqb_refl. reflexivity.
  - destruct (String.eqb_spec k k') as [->|Hne]; simpl.
    + rewrite String.eqb_refl. reflexivity.
    + destruct (String.eqb_spec k k'); [contradiction | exact IH].
Qed.

Lemma dict_get_set_other d k v k' :
  k' <> k -> dict_get (dict_set d k v) k' = dict_get d k'.
Proof.
  intro Hne. induction d as [|[k0 v0] d IH]; simpl.
  - destruct (String.eqb_spec k' k); [contradiction | reflexivity].
  - destruct (String.eqb_spec k k0) as [->|Hk]; simpl.
    + destruct (String.eqb_spec k' k0); [contradiction | reflexivity].
    + destruct (String.eqb_spec k' k0); [reflexivity | exact IH].
Qed.

Lemma keys_dict_set d k v :
  keys (dict_set d k v)
  = if mem_string k (keys d) then keys d else (keys d ++ [k])%list.
Proof.
  induction d as [|[k' v'] d IH]; simpl; [reflexivity|].
  destruct (String.eqb_spec k k') as [->|Hne]; simpl; [reflexivity|].
  rewrite IH. destruct (mem_string k (keys d)); reflexivity.
Qed.

Lemma dict_set_unique d k v :
  unique_keys d = true -> unique_keys (dict_set d k v) = true.
Proof.
  rewrite !unique_keys_NoDup, keys_dict_set. intro H.
  destruct (mem_string k (keys d)) eqn:E; [exact H|].
  apply NoDup_app; [exact H | repeat constructor; intros [] |].
  intros x Hx [<-|[]]. apply mem_string_In in Hx. congruence.
Qed.

Lemma dict_update_get other : forall d k,
  unique_keys other = true ->
  dict_get (dict_update d other) k
  = match dict_get other k with
    | Some v => Some v
    | None => dict_get d k
    end.
Proof.
  unfold dict_update.
  induction other as [|[k1 v1] other IH]; intros d k Hu; simpl; [reflexivity|].
  simpl in Hu. apply andb_true_iff in Hu. destruct Hu as [Hk Hu].
  apply negb_true_iff in Hk.
  rewrite (IH _ _ Hu).
  destruct (String.eqb_spec k k1) as [->|Hne].
  - assert (Hnone : dict_get other k1 = None).
    { apply dict_get_None. intro Hin. apply mem_string_In in Hin. congruence. }
    rewrite Hnone. apply dict_get_set_same.
  - rewrite (dict_get_set_other d k1 v1 k Hne). reflexivity.
Qed.

Lemma dict_update_unique other : forall d,
  unique_keys d = true -> unique_keys (dict_update d other) = true.
Proof.
  unfold dict_update.
  induction other as [|[k1 v1] other IH]; intros d Hd; simpl; [exact Hd|].
  apply IH. apply dict_set_unique. exact Hd.
Qed.

Lemma mem_string_app k l1 l2 :
  mem_string k (l1 ++ l2) = mem_string k l1 || mem_string k l2.
Proof.
  induction l1 as [|x l1 IH]; simpl; [reflexivity|].
  rewrite IH. apply orb_assoc.
Qed.

Lemma dict_update_keys other : forall d,
  unique_keys other = true ->
  keys (dict_update d other)
  = (keys d ++ filter (fun k => negb (mem_string k (keys d))) (keys other))%list.
Proof.
  unfold dict_update.
  induction other as [|[k1 v1] other IH]; intros d Hu; simpl.
  - rewrite app_nil_r. reflexivity.
  - simpl in Hu. apply andb_true_iff in Hu. destruct Hu as [Hk Hu].
    apply negb_true_iff in Hk.
    rewrite (IH _ Hu), keys_dict_set.
    destruct (mem_string k1 (keys d)) eqn:E; simpl; [reflexivity|].
    rewrite <- app_assoc. simpl. do 2 f_equal.
    apply filter_ext_in. intros k Hin. rewrite mem_string_app. simpl.
    destruct (String.eqb_spec k k1) as [->|Hne].
    + apply mem_string_In in Hin. congruence.
    + rewrite orb_false_r. reflexivity.
Qed.

Lemma kwargs_fit_unique kwargs :
  kwargs_fit kwargs = true -> unique_keys kwargs = true.
Proof. unfold kwargs_fit. intro H. apply andb_true_iff in H. tauto. Qed.

(** X8.  [place_order] puts its six fields and the extra keyword arguments
    into one body; once past [mcp.ctx] it hands the client one POST to the
    orders path with that body and an empty query, and in the module as
    imported it stops at [mcp.ctx] and hands over nothing.  An extra
    argument whose name is a body key ([quantity], [productType],
    [orderType]) replaces that field, in place; the other extra arguments
    follow the six fields in the order they were given; a [None] among them
    stays in the body; no key occurs twice. *)
Theorem place_order_body :
  forall (symbol : string) (qty price : pyfloat)
         (side product_type order_type : string) (kwargs : dict)
         (net : oracle) (p : process Dhan.globals),
    kwargs_fit kwargs = true ->
    exists body,
      issued (Dhan.place_order symbol qty price side product_type order_type
                kwargs) net p
      = match ctx_set (module_globals p) with
        | None => []
        | Some _ =>
            [mkRequest "POST" (Dhan.BASE_URL (module_globals p) ++ "/orders")
               (Some (Dhan.HEADERS (module_globals p))) (Some [])
               (Some (VDict body))]
        end /\
      unique_keys body = true /\
      (forall k,
         dict_get body k
         = match dict_get kwargs k with
           | Some v => Some v
           | None =>
               dict_get (order_fields symbol qty price side product_type
                           order_type) k
           end) /\
      keys body
      = (["symbol"; "quantity"; "price"; "side"; "productType"; "orderType"]
         ++ filter (fun k =>
                      negb (mem_string k
                              ["symbol"; "quantity"; "price"; "side";
                               "productType"; "orderType"]))
              (keys kwargs))%list.
Proof.
  intros symbol qty price side product_type order_type kwargs net p Hfit.
  pose proof (kwargs_fit_unique kwargs Hfit) as Hu.
  exists (dict_update
            (order_fields symbol qty price side product_type order_type) kwargs).
  split; [|split; [|split]].
  - dhan_tool_issues net.
  - apply dict_update_unique. reflexivity.
  - intro k. apply dict_update_get. exact Hu.
  - rewrite (dict_update_keys kwargs _ Hu). reflexivity.
Qed.

Lemma place_order_body_witness :
  exists body,
    issued (Dhan.place_order "TCS" (FFinite "10.0") (FFinite "3500.5") "BUY"
              "INTRADAY" "LIMIT" sample_kwargs) unreachable_server
      patched_process
    = match ctx_set (module_globals patched_process) with
      | None => []
      | Some _ =>
          [mkRequest "POST"
             (Dhan.BASE_URL (module_globals patched_process) ++ "/orders")
             (Some (Dhan.HEADERS (module_globals patched_process))) (Some [])
             (Some (VDict body))]
      end /\
    unique_keys body = true /\
    (forall k,
       dict_get body k
       = match dict_get sample_kwargs k with
         | Some v => Some v
         | None =>
             dict_get (order_fields "TCS" (FFinite "10.0") (FFinite "3500.5")
                         "BUY" "INTRADAY" "LIMIT") k
         end) /\
    keys body
    = (["symbol"; "quantity"; "price"; "side"; "productType"; "orderType"]
       ++ filter (fun k =>
                    negb (mem_string k
                            ["symbol"; "quantity"; "price"; "side";
                             "productType"; "orderType"]))
            (keys sample_kwargs))%list.
Proof.
  apply (place_order_body "TCS" (FFinite "10.0") (FFinite "3500.5") "BUY"
           "INTRADAY" "LIMIT" sample_kwargs unreachable_server patched_process).
  reflexivity.
Defined.

(** ** What a request depends on *)

(** X9.  The request of an invocation is built from its arguments and the
    module globals alone: the answers of the remote side, the environment
    and the requests made before have no part in it. *)
Theorem request_depends_on_arguments_only :
  (forall (i : Binance.invocation) (net net' : oracle) (g : Binance.globals)
          (env env' : list (string * string)) (sent sent' : list request),
     issued (Binance.invoke i) net (mkProcess g env sent)
     = issued (Binance.invoke i) net' (mkProcess g env' sent')) /\
  (forall (i : Dhan.invocation) (net net' : oracle) (g : Dhan.globals)
          (env env' : list (string * string)) (sent sent' : list request),
     issued (Dhan.invoke i) net (mkProcess g env sent)
     = issued (Dhan.invoke i) net' (mkProcess g env' sent')).
Proof.
  split; intros i net net' g env env' sent sent'.
  - destruct (binance_shape i) as [b H].
    rewrite (issued_one _ net _ (b g)) by (rewrite H; reflexivity).
    rewrite (issued_one _ net' _ (b g)) by (rewrite H; reflexivity).
    reflexivity.
  - destruct (dhan_shape i) as [b [H _]].
    destruct (ctx_set g) as [c|] eqn:Hc.
    + rewrite (issued_one _ net _ (b g)) by (rewrite H, Hc; reflexivity).
      rewrite (issued_one _ net' _ (b g)) by (rewrite H, Hc; reflexivity).
      reflexivity.
    + rewrite (issued_none _ net) by (rewrite H, Hc; reflexivity).
      rewrite (issued_none _ net') by (rewrite H, Hc; reflexivity).
      reflexivity.
Qed.

(** Both requests of two invocations of one tool, named. *)
Ltac two_requests net :=
  repeat match goal with o : option _ |- _ => destruct o end;
  do 2 eexists;
  (split; [tool_issues net|]); (split; [tool_issues net|]);
  repeat split.

(** The same for two invocations of one brokerage tool. *)
Ltac two_dhan_requests net :=
  repeat match goal with o : option _ |- _ => destruct o end;
  match goal with
  | |- match ctx_set (module_globals ?p) with _ => _ end =>
      let g := fresh "g" in
      let env := fresh "env" in
      let w := fresh "w" in
      let c := fresh "c" in
      let Hc := fresh "Hc" in
      destruct p as [g env w]; unfold ctx_set; cbn [module_globals];
      destruct (dict_get (attributes (Dhan.mcp g)) "ctx") as [c|] eqn:Hc;
      [ do 2 eexists;
        (split; [apply issued_one; cbn; unfold FastMCP_ctx; rewrite Hc; run_tool;
                 answer_cases net; reflexivity|]);
        (split; [apply issued_one; cbn; unfold FastMCP_ctx; rewrite Hc; run_tool;
                 answer_cases net; reflexivity|]);
        repeat split
      | split; apply issued_none; cbn; unfold FastMCP_ctx; rewrite Hc; reflexivity ]
  end.

(** X10.  The arguments of a tool never reach the method, the URL or the
    headers.  Two invocations of the same crypto tool, whatever their
    arguments, go to the same URL with the same method and without
    headers.  Two invocations of the same brokerage tool either both stop
    at [mcp.ctx], or go to the same URL with the same method and the same
    headers. *)
Theorem endpoint_fixed_per_tool :
  (forall (i j : Binance.invocation) (net : oracle)
          (p : process Binance.globals),
     binance_tool_of i = binance_tool_of j ->
     exists ri rj,
       issued (Binance.invoke i) net p = [ri] /\
       issued (Binance.invoke j) net p = [rj] /\
       method ri = method rj /\ url ri = url rj /\
       headers ri = None /\ headers rj = None) /\
  (forall (i j : Dhan.invocation) (net : oracle) (p : process Dhan.globals),
     dhan_tool_of i = dhan_tool_of j ->
     match ctx_set (module_globals p) with
     | None =>
         issued (Dhan.invoke i) net p = [] /\
         issued (Dhan.invoke j) net p = []
     | Some _ =>
         exists ri rj,
           issued (Dhan.invoke i) net p = [ri] /\
           issued (Dhan.invoke j) net p = [rj] /\
           method ri = method rj /\ url ri = url rj /\
           headers ri = headers rj
     end).
Proof.
  split; intros i j net p H.
  - destruct i; destruct j; try discriminate H; clear H; two_requests net.
  - destruct i; destruct j; try discriminate H; clear H; two_dhan_requests net.
Qed.

Lemma endpoint_fixed_per_tool_witness :
  (exists ri rj,
     issued (Binance.invoke (Binance.Call_getTradeData "BTCUSDT" "1m" None None None))
       unreachable_server (binance_process [] []) = [ri] /\
     issued (Binance.invoke
               (Binance.Call_getTradeData "x/../y?z=1" "" (Some 0) None (Some 5)))
       unreachable_server (binance_process [] []) = [rj] /\
     method ri = method rj /\ url ri = url rj /\
     headers ri = None /\ headers rj = None) /\
  (exists ri rj,
     issued (Dhan.invoke (Dhan.Call_get_option_chain "NIFTY"))
       unreachable_server patched_process = [ri] /\
     issued (Dhan.invoke (Dhan.Call_get_option_chain "../orders"))
       unreachable_server patched_process = [rj] /\
     method ri = method rj /\ url ri = url rj /\
     headers ri = headers rj).
Proof.
  split.
  - apply (proj1 endpoint_fixed_per_tool
             (Binance.Call_getTradeData "BTCUSDT" "1m" None None None)
             (Binance.Call_getTradeData "x/../y?z=1" "" (Some 0) None (Some 5))).
    reflexivity.
  - apply (proj2 endpoint_fixed_per_tool
             (Dhan.Call_get_option_chain "NIFTY")
             (Dhan.Call_get_option_chain "../orders")
             unreachable_server patched_process).
    reflexivity.
Defined.

(** ** What a tool reads of the response *)

(** X11.  A crypto tool never parses the body and a brokerage tool never
    reads the raw text: replacing what [resp.json()] would give, in the
    first case, or [resp.text], in the second, changes neither the request
    nor what the caller gets. *)
Theorem unused_response_parts :
  (forall (i : Binance.invocation) (parse : response -> result pyval)
          (net : oracle) (p : process Binance.globals),
     Binance.invoke i (reparsed parse net) p = Binance.invoke i net p) /\
  (forall (i : Dhan.invocation) (body : response -> string)
          (net : oracle) (p : process Dhan.globals),
     Dhan.invoke i (retexted body net) p = Dhan.invoke i net p).
Proof.
  split.
  - intros i parse net [g env w]. destruct (binance_shape i) as [b H].
    rewrite !H. unfold reparsed.
    destruct (net w (b g)) as [e|resp]; reflexivity.
  - intros i body net [g env w]. destruct (dhan_shape i) as [b [H _]].
    rewrite !H. unfold retexted.
    destruct (ctx_set g); [|reflexivity].
    destruct (net w (b g)) as [e|resp]; reflexivity.
Qed.

(** ** Sequences of invocations *)

Lemma binance_session_grows calls net : forall p,
  module_globals (binance_session calls net p) = module_globals p /\
  environ (binance_session calls net p) = environ p /\
  exists added,
    wire (binance_session calls net p) = (wire p ++ added)%list /\
    List.length added = List.length calls.
Proof.
  induction calls as [|i calls IH]; intros [g env w]; simpl.
  - repeat split. exists []. rewrite app_nil_r. split; reflexivity.
  - destruct (binance_shape i) as [b H]. rewrite H. cbn [snd].
    destruct (IH (mkProcess g env (w ++ [b g]))) as [Hg [He [added [Hw Hl]]]].
    split; [exact Hg|]. split; [exact He|]. exists (b g :: added).
    cbn [wire] in Hw.
    rewrite Hw, <- app_assoc. split; [reflexivity | simpl; congruence].
Qed.

Lemma dhan_run_grows steps net : forall p,
  module_globals (dhan_run steps net p) = module_globals p /\
  exists added,
    wire (dhan_run steps net p) = (wire p ++ added)%list /\
    (List.length added <= List.length steps)%nat.
Proof.
  induction steps as [|[env' s] steps IH]; intros [g env w]; simpl.
  - split; [reflexivity|]. exists []. rewrite app_nil_r.
    split; [reflexivity | apply Nat.le_refl].
  - destruct (dhan_step_frame s net g env' w) as [one [Hr [Hl _]]].
    rewrite Hr.
    destruct (IH (mkProcess g env' (w ++ one))) as [Hg [added [Hw Ha]]].
    split; [exact Hg|]. exists (one ++ added)%list. cbn [wire] in Hw.
    rewrite Hw, <- app_assoc. split; [reflexivity|].
    rewrite length_app. lia.
Qed.

Lemma dhan_tools_as_imported calls net : forall g env w,
  ctx_set g = None ->
  wire (dhan_run (map (fun c => (fst c, Step_tool (snd c))) calls) net
          (mkProcess g env w))
  = w.
Proof.
  induction calls as [|[env' i] calls IH]; intros g env w Hc; simpl.
  - reflexivity.
  - destruct (dhan_shape i) as [b [H _]]. rewrite H, Hc. cbn [snd].
    apply IH. exact Hc.
Qed.

(** X13.  Over any sequence of uses, failed or not, the module globals end
    as they started and the list of requests handed to the HTTP client only
    grows: what was on it stays, in place.  The crypto adapter adds one
    request per invocation; the brokerage module adds at most one per use,
    and in the module as imported a sequence of tool invocations adds
    none. *)
Theorem sessions_only_append :
  (forall (calls : list Binance.invocation) (net : oracle)
          (p : process Binance.globals),
     module_globals (binance_session calls net p) = module_globals p /\
     environ (binance_session calls net p) = environ p /\
     exists added,
       wire (binance_session calls net p) = (wire p ++ added)%list /\
       List.length added = List.length calls) /\
  (forall (steps : list (list (string * string) * dhan_step))
          (net : oracle) (p : process Dhan.globals),
     module_globals (dhan_run steps net p) = module_globals p /\
     exists added,
       wire (dhan_run steps net p) = (wire p ++ added)%list /\
       (List.length added <= List.length steps)%nat) /\
  (forall (calls : list (list (string * string) * Dhan.invocation))
          (net : oracle) (start_env env : list (string * string))
          (sent : list request),
     wire (dhan_run (map (fun c => (fst c, Step_tool (snd c))) calls) net
             (dhan_process start_env env sent))
     = sent).
Proof.
  split; [|split].
  - intros calls net p. apply binance_session_grows.
  - intros steps net p. apply dhan_run_grows.
  - intros calls net start_env env sent. unfold dhan_process.
    apply dhan_tools_as_imported. apply ctx_unset_after_import.
Qed.

(** ** The JSON text of a list of symbols *)

Lemma string_app_assoc (a b c : string) : (a ++ b) ++ c = a ++ (b ++ c).
Proof. induction a as [|x a IH]; simpl; [reflexivity | rewrite IH; reflexivity]. Qed.

Lemma unescape_escape (c : ascii) (rest : string) :
  unescape_head (escape_char c ++ rest) = Some (c, rest).
Proof.
  destruct c as [b0 b1 b2 b3 b4 b5 b6 b7].
  destruct b0, b1, b2, b3, b4, b5, b6, b7; reflexivity.
Qed.

Lemma escape_string_cut : forall s1 s2 t1 t2,
  escape_string s1 ++ String quote t1 = escape_string s2 ++ String quote t2 ->
  s1 = s2 /\ t1 = t2.
Proof.
  induction s1 as [|c1 s1 IH]; intros [|c2 s2] t1 t2 H; simpl in H.
  - inversion H. split; reflexivity.
  - rewrite string_app_assoc in H. apply (f_equal unescape_head) in H.
    rewrite unescape_escape in H. discriminate H.
  - rewrite string_app_assoc in H. apply (f_equal unescape_head) in H.
    rewrite unescape_escape in H. discriminate H.
  - rewrite !string_app_assoc in H. apply (f_equal unescape_head) in H.
    rewrite !unescape_escape in H. inversion H as [[Hc Hrest]].
    destruct (IH _ _ _ Hrest) as [-> ->]. split; reflexivity.
Qed.

Lemma encode_str_inj s1 s2 : encode_str s1 = encode_str s2 -> s1 = s2.
Proof.
  unfold encode_str. intro H. inversion H as [Hrest].
  apply escape_string_cut in Hrest. tauto.
Qed.

Lemma joined_cons s l :
  join ", " (map encode_str (s :: l)) ++ "]"
  = String quote
      (escape_string s ++
       String quote
         match l with
         | [] => "]"
         | _ :: _ => ", " ++ (join ", " (map encode_str l) ++ "]")
         end).
Proof.
  destruct l as [|x l]; cbn [map join]; unfold encode_str at 1; simpl;
    rewrite !string_app_assoc; reflexivity.
Qed.

Lemma joined_inj : forall l1 l2,
  join ", " (map encode_str l1) ++ "]" = join ", " (map encode_str l2) ++ "]" ->
  l1 = l2.
Proof.
  induction l1 as [|s1 l1 IH]; intros [|s2 l2] H.
  - reflexivity.
  - rewrite joined_cons in H. discriminate H.
  - rewrite joined_cons in H. discriminate H.
  - rewrite !joined_cons in H. inversion H as [Hrest].
    apply escape_string_cut in Hrest. destruct Hrest as [-> Ht].
    f_equal. destruct l1 as [|x1 l1], l2 as [|x2 l2].
    + reflexivity.
    + discriminate Ht.
    + discriminate Ht.
    + apply IH. injection Ht as Ht. exact Ht.
Qed.

Lemma json_dumps_str_list_inj l1 l2 :
  json_dumps (str_list l1) = json_dumps (str_list l2) -> l1 = l2.
Proof.
  unfold str_list. rewrite !json_dumps_str_list. intro H.
  inversion H as [Hrest]. apply joined_inj. exact Hrest.
Qed.

(** X14.  For symbols whose characters are code points below 256, the
    JSON text written for a list of symbols determines the list: two such
    lists have the same text only when they are the same list, so no symbol
    can pass for another or for several, and two calls of
    [TradingDayTicker] hand the client the same request only for the same
    list. *)
Theorem symbols_encoding_injective :
  (forall s1 s2 : string, encode_str s1 = encode_str s2 <-> s1 = s2) /\
  (forall l1 l2 : list string,
     json_dumps (str_list l1) = json_dumps (str_list l2) <-> l1 = l2) /\
  (forall (l1 l2 : list string) (net : oracle) (p : process Binance.globals),
     issued (Binance.TradingDayTicker l1) net p
     = issued (Binance.TradingDayTicker l2) net p <-> l1 = l2).
Proof.
  split; [|split].
  - intros s1 s2. split; [apply encode_str_inj | intros ->; reflexivity].
  - intros l1 l2. split; [apply json_dumps_str_list_inj | intros ->; reflexivity].
  - intros l1 l2 net p. split; [|intros ->; reflexivity].
    rewrite (issued_one (Binance.TradingDayTicker l1) net p
               (mkRequest "GET"
                  (Binance.BASE_URL (module_globals p) ++ "ticker/tradingDay")
                  None
                  (Some [("symbols",
                          VStr ("[" ++ join ", " (map encode_str l1) ++ "]"))])
                  None))
      by (run_tool; answer_cases net; reflexivity).
    rewrite (issued_one (Binance.TradingDayTicker l2) net p
               (mkRequest "GET"
                  (Binance.BASE_URL (module_globals p) ++ "ticker/tradingDay")
                  None
                  (Some [("symbols",
                          VStr ("[" ++ join ", " (map encode_str l2) ++ "]"))])
                  None))
      by (run_tool; answer_cases net; reflexivity).
    intro H. inversion H as [Hrest]. apply joined_inj. exact Hrest.
Qed.

Lemma escape_plain_char c : plain_char c = true -> escape_char c = String c EmptyString.
Proof.
  destruct c as [b0 b1 b2 b3 b4 b5 b6 b7].
  destruct b0, b1, b2, b3, b4, b5, b6, b7; intro H;
    first [reflexivity | discriminate H].
Qed.

Lemma escape_plain_string s : plain_string s = true -> escape_string s = s.
Proof.
  induction s as [|c s IH]; simpl; intro H; [reflexivity|].
  apply andb_true_iff in H. destruct H as [Hc Hs].
  rewrite (escape_plain_char c Hc), (IH Hs). reflexivity.
Qed.

(** X15.  Symbols made of printable ASCII characters other than the double
    quote and the backslash go out verbatim: the text sent for the list is
    an opening bracket, the symbols each between double quotes and
    separated by a comma and a space, and a closing bracket. *)
Theorem plain_symbols_verbatim :
  forall l : list string,
    forallb plain_string l = true ->
    transport (str_list l)
    = inr (VStr ("[" ++ join ", " (map quoted l) ++ "]")).
Proof.
  intros l H. rewrite transport_str_list.
  assert (Hm : map encode_str l = map quoted l).
  { induction l as [|s l IH]; simpl; [reflexivity|].
    simpl in H. apply andb_true_iff in H. destruct H as [Hs Hl].
    rewrite (IH Hl). unfold encode_str, quoted.
    rewrite (escape_plain_string s Hs). reflexivity. }
  rewrite Hm. reflexivity.
Qed.

Lemma plain_symbols_verbatim_witness :
  transport (str_list ["BTCUSDT"; "ETHUSDT"; "BNB-USD_2"])
  = inr (VStr ("[" ++ join ", " (map quoted ["BTCUSDT"; "ETHUSDT"; "BNB-USD_2"])
                   ++ "]")).
Proof. apply (plain_symbols_verbatim ["BTCUSDT"; "ETHUSDT"; "BNB-USD_2"]). reflexivity. Defined.

(** ** The ticker tools and their optional arguments *)

(** The request of a ticker tool, case by case on its optional arguments. *)
Ltac ticker_request net :=
  repeat match goal with o : option _ |- _ => destruct o end;
  eexists;
  repeat (split; [first [tool_issues net | reflexivity]|]);
  reflexivity.

(** X16.  [SymbolPriceTicker], [SymbolOrderBookTicker] and
    [RollingWindowTicker] send exactly the arguments they were given, in
    the order of the signature: an omitted argument is absent, a symbol
    list is sent as its JSON text (an empty list as the text of an empty
    array), and nothing stops [symbol] and [symbols] from going out
    together.  With no argument at all the query is empty, not missing. *)
Theorem ticker_queries :
  (forall (symbol : option string) (symbols : option (list string))
          (net : oracle) (p : process Binance.globals),
     exists q,
       issued (Binance.SymbolPriceTicker symbol symbols) net p
       = [mkRequest "GET" (Binance.BASE_URL (module_globals p) ++ "ticker/price")
            None (Some q) None] /\
       issued (Binance.SymbolOrderBookTicker symbol symbols) net p
       = [mkRequest "GET"
            (Binance.BASE_URL (module_globals p) ++ "ticker/bookTicker")
            None (Some q) None] /\
       keys q
       = keys (filter not_None [ ("symbol", optional VStr symbol);
                                 ("symbols", optional str_list symbols) ]) /\
       dict_get q "symbol" = option_map VStr symbol /\
       dict_get q "symbols"
       = option_map
           (fun l => VStr ("[" ++ join ", " (map encode_str l) ++ "]"))
           symbols) /\
  (forall (symbol : option string) (symbols : option (list string))
          (windowSize type : option string)
          (net : oracle) (p : process Binance.globals),
     exists q,
       issued (Binance.RollingWindowTicker symbol symbols windowSize type) net p
       = [mkRequest "GET" (Binance.BASE_URL (module_globals p) ++ "ticker")
            None (Some q) None] /\
       keys q
       = keys (filter not_None [ ("symbol", optional VStr symbol);
                                 ("symbols", optional str_list symbols);
                                 ("windowSize", optional VStr windowSize);
                                 ("type", optional VStr type) ]) /\
       dict_get q "symbol" = option_map VStr symbol /\
       dict_get q "symbols"
       = option_map
           (fun l => VStr ("[" ++ join ", " (map encode_str l) ++ "]"))
           symbols /\
       dict_get q "windowSize" = option_map VStr windowSize /\
       dict_get q "type" = option_map VStr type).
Proof.
  split.
  - intros symbol symbols net p. ticker_request net.
  - intros symbol symbols windowSize type net p. ticker_request net.
Qed.
